(** * doc/ext/local.py: the Sphinx extension of libswoc

    A shallow embedding of [doc/ext/local.py] and of the library calls it
    makes: [os.path.basename] (POSIX flavour), [str.format], [str.lower],
    the docutils node constructor behind [nodes.reference] with the
    rendering of its text ([Text.astext], [utils.unescape]), the docutils
    role registry and the Sphinx component registry.

    Python strings are modelled as [string]; a character is a code point
    below 256.  Mutable Python objects (dicts and lists) live in an object
    store and are passed by reference. *)

From stdpp Require Import gmap strings list fin_maps.
From Stdlib Require Import ZArith Ascii String.

Local Open Scope string_scope.
Local Open Scope Z_scope.

(** ** Python strings *)

Module Str.

(** [c in s] for a one-character [c]. *)
Fixpoint contains (c : ascii) (s : string) : bool :=
  match s with
  | EmptyString => false
  | String a s' => Ascii.eqb a c || contains c s'
  end.

(** [s.rfind(c)] for a one-character [c]: the highest index at which [c]
    occurs, or [-1].  [pos] is the index of the head of [s] and [last]
    the best index seen so far. *)
Fixpoint rfind_from (c : ascii) (s : string) (pos last : Z) : Z :=
  match s with
  | EmptyString => last
  | String a s' =>
      rfind_from c s' (pos + 1) (if Ascii.eqb a c then pos else last)
  end.

Definition rfind (c : ascii) (s : string) : Z := rfind_from c s 0 (-1).

Fixpoint drop (n : nat) (s : string) : string :=
  match n, s with
  | O, _ => s
  | S _, EmptyString => EmptyString
  | S n', String _ s' => drop n' s'
  end.

Definition len (s : string) : Z := Z.of_nat (String.length s).

(** The slice [s[i:]]: a negative [i] counts from the end and is clamped
    at the start of the string. *)
Definition slice_from (i : Z) (s : string) : string :=
  let start := if i <? 0 then Z.max 0 (i + len s) else i in
  drop (Z.to_nat start) s.

(** [str.lower] on one code point below 256: the ASCII capitals and the
    Latin-1 capitals U+00C0..U+00DE (U+00D7, the multiplication sign, is
    not a letter) move up by 32. *)
Definition lower_char (c : ascii) : ascii :=
  let n := N_of_ascii c in
  if (((65 <=? n) && (n <=? 90))
      || ((192 <=? n) && (n <=? 222) && negb (n =? 215)))%N
  then ascii_of_N (n + 32)
  else c.

Fixpoint lower (s : string) : string :=
  match s with
  | EmptyString => EmptyString
  | String a s' => String (lower_char a) (lower s')
  end.

End Str.

(** ** Exceptions and results *)

Inductive exn : Set :=
| TypeError
| ValueError
| IndexError
| ExtensionError   (* sphinx.errors.ExtensionError *)
| Dangling.        (* a reference to no object: not reachable from a
                      well-formed store *)

Inductive result (A : Type) : Type :=
| Ok (a : A)
| Raise (e : exn).
Arguments Ok {A} a.
Arguments Raise {A} e.

(** ** [str.format] with automatically numbered fields

    The replacement fields of the template are [{}] only; [{{] and [}}]
    are the escapes of a brace.  The arguments are strings, so formatting
    one with the empty format spec gives the string itself, and it is not
    scanned again.  Arguments left over are ignored, a missing one raises
    [IndexError], and any other use of a brace raises [ValueError]. *)

Module Format.

Definition lbrace : ascii := "{"%char.
Definition rbrace : ascii := "}"%char.

Fixpoint format (tmpl : string) (args : list string) : result string :=
  match tmpl with
  | EmptyString => Ok EmptyString
  | String a EmptyString =>
      if Ascii.eqb a lbrace || Ascii.eqb a rbrace
      then Raise ValueError
      else Ok (String a EmptyString)
  | String a (String b rest as tl) =>
      if Ascii.eqb a lbrace then
        if Ascii.eqb b rbrace then
          match args with
          | [] => Raise IndexError
          | x :: args' =>
              match format rest args' with
              | Ok r => Ok (x +:+ r)
              | Raise e => Raise e
              end
          end
        else if Ascii.eqb b lbrace then
          match format rest args with
          | Ok r => Ok (String lbrace r)
          | Raise e => Raise e
          end
        else Raise ValueError
      else if Ascii.eqb a rbrace then
        if Ascii.eqb b rbrace then
          match format rest args with
          | Ok r => Ok (String rbrace r)
          | Raise e => Raise e
          end
        else Raise ValueError
      else
        match format tl args with
        | Ok r => Ok (String a r)
        | Raise e => Raise e
        end
  end.

End Format.

(** ** [os.path] on POSIX ([posixpath]) *)

Module posixpath.

Definition sep : ascii := "/"%char.

(** [def basename(p): i = p.rfind(sep) + 1; return p[i:]] *)
Definition basename (p : string) : string :=
  let i := Str.rfind sep p + 1 in
  Str.slice_from i p.

End posixpath.

(** ** Python values and the object store *)

Definition loc := positive.

(** Immutable values are held directly; a list or a dict is a reference
    into the store. *)
Inductive pyval : Set :=
| VNone
| VBool (b : bool)
| VInt (n : Z)
| VStr (s : string)
| VRef (l : loc).

(** A dict keeps its items in insertion order; its keys are strings (the
    only keys a [**] argument may have). *)
Inductive pyobj : Set :=
| OList (items : list pyval)
| ODict (items : list (string * pyval)).

Abbreviation heap := (gmap loc pyobj).

(** ** Computations that read and extend a state and may raise

    An exception keeps the state reached so far. *)

Definition M (St A : Type) : Type := St -> result A * St.

Definition raise {St A} (e : exn) : M St A := fun s => (Raise e, s).

Definition lift {St A} (r : result A) : M St A := fun s => (r, s).

#[export] Instance M_ret {St} : MRet (M St) := fun A a s => (Ok a, s).

#[export] Instance M_bind {St} : MBind (M St) := fun A B k m s =>
  match m s with
  | (Ok a, s') => k a s'
  | (Raise e, s') => (Raise e, s')
  end.

(** A [for] loop over [xs] that threads an accumulator. *)
Fixpoint for_each {St A B} (xs : list A) (body : B -> A -> M St B) (acc : B)
  : M St B :=
  match xs with
  | [] => mret acc
  | x :: xs' => acc' ← body acc x; for_each xs' body acc'
  end.

Module Heap.

(** Creating an object: it gets an address no live object has. *)
Definition alloc (o : pyobj) : M heap loc :=
  fun h => let l := fresh (dom h) in (Ok l, <[l := o]> h).

Definition deref (l : loc) : M heap pyobj :=
  fun h =>
    match h !! l with
    | Some o => (Ok o, h)
    | None => (Raise Dangling, h)
    end.

(** [value[:]]: a copy of a list, the string itself for a string;
    nothing else in this value universe can be sliced.  (For a dict
    Python up to 3.11 raises [TypeError], as here; from 3.12 on, where a
    slice can be hashed, it raises [KeyError].) *)
Definition slice_all (value : pyval) : M heap pyval :=
  match value with
  | VStr s => mret (VStr s)
  | VRef l =>
      o ← deref l;
      match o with
      | OList items => l' ← alloc (OList items); mret (VRef l')
      | ODict _ => raise TypeError
      end
  | VNone | VBool _ | VInt _ => raise TypeError
  end.

End Heap.

(** ** docutils: [docutils.utils] *)

Module utils.

(** The role function gets its text with each backslash of the markup
    turned into a NUL character. *)
Definition nul : ascii := "000"%char.

(** [''.join(text.split(sep))] for a separator of two characters [a] and
    [b]: the occurrences of the separator, found from the left and not
    overlapping, are left out. *)
Fixpoint remove_pair (a b : ascii) (text : string) : string :=
  match text with
  | EmptyString => EmptyString
  | String x EmptyString => String x EmptyString
  | String x (String y rest as tl) =>
      if Ascii.eqb x a && Ascii.eqb y b
      then remove_pair a b rest
      else String x (remove_pair a b tl)
  end.

(** [''.join(text.split(sep))] for a separator of one character. *)
Fixpoint remove_char (a : ascii) (text : string) : string :=
  match text with
  | EmptyString => EmptyString
  | String x rest =>
      if Ascii.eqb x a then remove_char a rest
      else String x (remove_char a rest)
  end.

(** [def unescape(text):
       for sep in ['\x00 ', '\x00\n', '\x00']:
           text = ''.join(text.split(sep))
       return text]:
    the text with the NUL characters, and an escaped space or newline
    after one, removed. *)
Definition unescape (text : string) : string :=
  remove_char nul
    (remove_pair nul "010"%char (remove_pair nul " "%char text)).

End utils.

(** ** docutils: [docutils.nodes] *)

Module nodes.

(** The node classes the extension names. *)
Inductive node_class : Set := reference | emphasis | literal | strong.

(** A text leaf, [nodes.Text(data)]. *)
Inductive child : Set := Text (data : string).

Record node : Type := Node {
  tagname : node_class;
  rawsource : string;
  children : list child;
  attributes : gmap string pyval
}.

(** [Element.list_attributes], as in docutils up to 0.21; from 0.22 on
    [backrefs] is a list attribute of the elements that can be referred
    back to only, and a reference node is not one of them. *)
Definition list_attributes : list string :=
  ["ids"; "classes"; "names"; "dupnames"; "backrefs"].

(** [for att in self.list_attributes: self.attributes[att] = []] *)
Definition init_list_attribute (d : gmap string pyval) (att : string)
  : M heap (gmap string pyval) :=
  l ← Heap.alloc (OList []); mret (<[att := VRef l]> d).

(** The body of the loop over the keywords,
    [for att, value in attributes.items():
       att = att.lower()
       if att in self.list_attributes: self.attributes[att] = value[:]
       else: self.attributes[att] = value]:
    a list attribute gets a copy, any other the value itself. *)
Definition set_attribute (d : gmap string pyval) (kv : string * pyval)
  : M heap (gmap string pyval) :=
  let att := Str.lower kv.1 in
  if bool_decide (att ∈ list_attributes)
  then v ← Heap.slice_all kv.2; mret (<[att := v]> d)
  else mret (<[att := kv.2]> d).

(** [Element.__init__(self, rawsource='', *children, **attributes)]:
    every list attribute starts as a new empty list, then the keywords
    are stored in call order. *)
Definition Element_init (cls : node_class) (rawsource : string)
    (children : list child) (attributes : list (string * pyval))
  : M heap node :=
  defaults ← for_each list_attributes init_list_attribute
               (∅ : gmap string pyval);
  attrs ← for_each attributes set_attribute defaults;
  mret (Node cls rawsource children attrs).

(** [TextElement.__init__(self, rawsource='', text='', *children,
    **attributes)]: a text child is made only for a non-empty text. *)
Definition TextElement_init (cls : node_class) (rawsource text : string)
    (attributes : list (string * pyval)) : M heap node :=
  if bool_decide (text ≠ "")
  then Element_init cls rawsource [Text text] attributes
  else Element_init cls rawsource [] attributes.

(** The names of the parameters of [TextElement.__init__] that the call
    below fills by position. *)
Definition positional_names : list string := ["self"; "rawsource"; "text"].

Definition has_key_in (names : list string) (items : list (string * pyval))
  : bool :=
  existsb (fun kv => bool_decide (kv.1 ∈ names)) items.

(** The call [cls(rawsource, text, k1=v1, ..., **star)] of a text element
    class.  Python raises [TypeError] when [star] is not a mapping, when
    it repeats a keyword written at the call, and when a keyword names a
    parameter already filled by position.  The keywords reach
    [__init__] in call order: the written ones, then the items of
    [star]. *)
Definition call_TextElement (cls : node_class) (rawsource text : string)
    (keywords : list (string * pyval)) (star : loc) : M heap node :=
  o ← Heap.deref star;
  match o with
  | OList _ => raise TypeError
  | ODict items =>
      if has_key_in (keywords.*1) items then raise TypeError
      else
        let kwargs := (keywords ++ items)%list in
        if has_key_in positional_names kwargs then raise TypeError
        else TextElement_init cls rawsource text kwargs
  end.

(** [Text.astext], which is [str(unescape(self))], and [Element.astext]
    with the empty separator of a text element. *)
Definition child_astext (c : child) : string :=
  match c with Text data => utils.unescape data end.

Definition astext (n : node) : string :=
  foldr (fun c acc => child_astext c +:+ acc) "" (children n).

(** [node.get(att)] *)
Definition get (n : node) (att : string) : option pyval :=
  attributes n !! att.

End nodes.

(** ** The role functions of docutils *)

(** The signature docutils gives a role function:
    [role_fn(name, rawtext, text, lineno, inliner, options, content)],
    returning the nodes and the system messages. *)
Definition role_function : Type :=
  string -> string -> string -> Z -> pyval -> loc -> loc ->
  M heap (list nodes.node * list nodes.node).

Inductive role : Type :=
| GenericRole (name : string) (node_class : nodes.node_class)
| RoleFunction (fn : role_function).

(** ** Sphinx: domains and the component registry of an application *)

Module sphinx.

(** The class attributes of a [Domain] subclass. *)
Record Domain : Set := {
  name : string;
  label : string;
  data_version : Z
}.

(** [SphinxComponentRegistry]: one per application. *)
Record registry : Type := Registry {
  domains : gmap string Domain;
  domain_roles : gmap string (gmap string role)
}.

(** [def add_domain(self, domain):
       if domain.name in self.domains: raise ExtensionError(...)
       self.domains[domain.name] = domain] *)
Definition add_domain (domain : Domain) : M registry () :=
  fun r =>
    if bool_decide (is_Some (domains r !! name domain))
    then (Raise ExtensionError, r)
    else (Ok (), Registry (<[name domain := domain]> (domains r))
                          (domain_roles r)).

(** [def add_role_to_domain(self, domain, name, role):
       if domain not in self.domains: raise ExtensionError(...)
       roles = self.domain_roles.setdefault(domain, {})
       if name in roles: raise ExtensionError(...)
       roles[name] = role] *)
Definition add_role_to_domain (domain name : string) (rl : role)
  : M registry () :=
  fun r =>
    if bool_decide (is_Some (domains r !! domain)) then
      let roles := default ∅ (domain_roles r !! domain) in
      if bool_decide (is_Some (roles !! name))
      then (Raise ExtensionError,
            Registry (domains r) (<[domain := roles]> (domain_roles r)))
      else (Ok (), Registry (domains r)
                     (<[domain := <[name := rl]> roles]> (domain_roles r)))
    else (Raise ExtensionError, r).

End sphinx.

(** ** The process: the role table of docutils and the applications *)

Definition app := positive.

(** [role_registry] is [docutils.parsers.rst.roles._role_registry], one
    table for the whole process; [apps] gives each live Sphinx application
    its own registry. *)
Record world : Type := World {
  role_registry : gmap string role;
  apps : gmap app sphinx.registry
}.

Module roles.

(** [def register_generic_role(canonical_name, node_class):
       role = GenericRole(canonical_name, node_class)
       register_canonical_role(canonical_name, role)],
    where [register_canonical_role(name, role_fn)] does
    [_role_registry[name.lower()] = role_fn]. *)
Definition register_generic_role (canonical_name : string)
    (node_class : nodes.node_class) : M world () :=
  fun w =>
    (Ok (), World (<[Str.lower canonical_name :=
                      GenericRole canonical_name node_class]>
                     (role_registry w))
                  (apps w)).

End roles.

(** A method call on the application handle [a]. *)
Definition on_app {A} (a : app) (m : M sphinx.registry A) : M world A :=
  fun w =>
    match apps w !! a with
    | None => (Raise Dangling, w)
    | Some r =>
        let '(x, r') := m r in
        (x, World (role_registry w) (<[a := r']> (apps w)))
    end.

(** ** doc/ext/local.py *)

Module local.

(** [class SWOCDomain(Domain)] *)
Definition SWOCDomain : sphinx.Domain :=
  {| sphinx.name := "swoc"; sphinx.label := "SWOC";
     sphinx.data_version := 1 |}.

(** [def make_github_link(name, rawtext, text, lineno, inliner,
         options={}, content=[]):
       url = 'https://github.com/SolidWallOfCode/libswoc/blob/{}/{}'
       ref = 'master'
       node = nodes.reference(rawtext, os.path.basename(text),
                              refuri=url.format(ref, text), **options)
       return [node], []] *)
Definition make_github_link : role_function :=
  fun name rawtext text lineno inliner options content =>
    let url := "https://github.com/SolidWallOfCode/libswoc/blob/{}/{}" in
    let ref := "master" in
    let display := posixpath.basename text in
    refuri ← lift (Format.format url [ref; text]);
    node ← nodes.call_TextElement nodes.reference rawtext display
              [("refuri", VStr refuri)] options;
    mret ([node], []).

(** The default values [{}] and [[]] are made once, when the [def]
    statement runs, and every call that omits the argument gets the same
    object. *)
Record defaults : Set := Defaults {
  default_options : loc;
  default_content : loc
}.

Definition def_make_github_link : M heap defaults :=
  o ← Heap.alloc (ODict []);
  c ← Heap.alloc (OList []);
  mret (Defaults o c).

(** A call that may leave [options] and [content] out. *)
Definition call_make_github_link (d : defaults)
    (name rawtext text : string) (lineno : Z) (inliner : pyval)
    (options content : option loc)
  : M heap (list nodes.node * list nodes.node) :=
  make_github_link name rawtext text lineno inliner
    (default (default_options d) options)
    (default (default_content d) content).

(** [def setup(app):
       rst.roles.register_generic_role('arg', nodes.emphasis)
       rst.roles.register_generic_role('const', nodes.literal)
       rst.roles.register_generic_role('pack', nodes.strong)
       app.add_domain(SWOCDomain)
       app.add_role_to_domain('swoc', 'git', make_github_link)] *)
Definition setup (a : app) : M world () :=
  roles.register_generic_role "arg" nodes.emphasis;;
  roles.register_generic_role "const" nodes.literal;;
  roles.register_generic_role "pack" nodes.strong;;
  on_app a (sphinx.add_domain SWOCDomain);;
  on_app a (sphinx.add_role_to_domain "swoc" "git"
              (RoleFunction make_github_link)).

End local.

(** ** Vocabulary of the specifications *)

(** The link of a path on the fixed reference. *)
Definition github_blob_master : string :=
  "https://github.com/SolidWallOfCode/libswoc/blob/master/".

(** [value[:]] works on [v] in the store [h]. *)
Definition sliceable (h : heap) (v : pyval) : bool :=
  match v with
  | VStr _ => true
  | VRef l => match h !! l with Some (OList _) => true | _ => false end
  | VNone | VBool _ | VInt _ => false
  end.

(** The options the call of [nodes.reference] takes: no key repeats the
    keyword [refuri] written at the call or names a positional parameter
    of the constructor, and a value stored under a list attribute can be
    sliced. *)
Definition storable (h : heap) (kv : string * pyval) : bool :=
  if bool_decide (Str.lower kv.1 ∈ nodes.list_attributes)
  then sliceable h kv.2 else true.

Definition accepts (h : heap) (items : list (string * pyval)) : bool :=
  negb (nodes.has_key_in ["refuri"] items)
  && negb (nodes.has_key_in nodes.positional_names items)
  && forallb (storable h) items.

(** The options docutils passes to a role function that declares none
    of its own: the empty ones, or, for a role made with the [role]
    directive, the list of class names alone, under the key [class] or
    [classes]. *)
Definition host_supplied (h : heap) (items : list (string * pyval)) : Prop :=
  items = [] \/
  exists k l xs,
    items = [(k, VRef l)] /\ (k = "class" \/ k = "classes") /\
    h !! l = Some (OList xs).

(** Some key of the options is [refuri] up to the case of its letters. *)
Definition overrides_refuri (items : list (string * pyval)) : bool :=
  existsb (fun kv => bool_decide (Str.lower kv.1 = "refuri")) items.

(** Options that are accepted and leave the link alone: the empty default
    is such, and so is a mapping that only sets [classes]. *)
Definition plain_options (h : heap) (items : list (string * pyval)) : bool :=
  accepts h items && negb (overrides_refuri items).

(** The children [TextElement.__init__] gives a node for [text]. *)
Definition text_children (text : string) : list nodes.child :=
  if bool_decide (text ≠ "") then [nodes.Text text] else [].

(** What a run of [m] from [s] establishes: [Q] of its outcome and final
    state. *)
Definition wp {St A} (m : M St A) (Q : result A -> St -> Prop) (s : St)
  : Prop :=
  Q (m s).1 (m s).2.

(** The link of every node the call returns for [text] is the one on the
    fixed reference. *)
Definition links_to_master (text : string) (options : loc) (h : heap)
  : Prop :=
  forall name rawtext lineno inliner content node msgs h',
    local.make_github_link name rawtext text lineno inliner options content h
    = (Ok ([node], msgs), h') ->
    nodes.get node "refuri" = Some (VStr (github_blob_master +:+ text)).

(** A store with an options dict at address 1 and an empty content list
    at address 2; with no items it is the store [def make_github_link]
    leaves when run on the empty one. *)
Definition store_with_options (items : list (string * pyval)) : heap :=
  <[2%positive := OList []]> (<[1%positive := ODict items]> ∅).

Definition defaults0 : local.defaults := local.Defaults 1%positive 2%positive.

(** Options that style the link: the classes are the list at address 3
    and the title is a string. *)
Definition styled_options : list (string * pyval) :=
  [("classes", VRef 3%positive); ("Title", VStr "source")].

Definition store_with_styled_options : heap :=
  <[3%positive := OList [VStr "external"]]>
    (store_with_options styled_options).

(** A process with two applications, each with an empty registry, and
    an empty role table. *)
Definition two_apps : world :=
  World ∅ (<[2%positive := sphinx.Registry ∅ ∅]>
             (<[1%positive := sphinx.Registry ∅ ∅]> ∅)).

(** Everything an application [b] can read of the process: its own
    registry and the role table of docutils. *)
Definition view (b : app) (w : world)
  : option sphinx.registry * gmap string role :=
  (apps w !! b, role_registry w).

(** [setup] on the application [a] leaves unchanged all that another
    application [b] can read. *)
Definition no_shared_state (w : world) (a b : app) : Prop :=
  view b (local.setup a w).2 = view b w.

(** The role table after the three generic roles are registered. *)
Definition with_generic_roles (t : gmap string role) : gmap string role :=
  <["pack" := GenericRole "pack" nodes.strong]>
    (<["const" := GenericRole "const" nodes.literal]>
       (<["arg" := GenericRole "arg" nodes.emphasis]> t)).

(** The registry of an application after the domain and its role are
    registered. *)
Definition with_swoc (r : sphinx.registry) : sphinx.registry :=
  sphinx.Registry
    (<["swoc" := local.SWOCDomain]> (sphinx.domains r))
    (<["swoc" := {["git" := RoleFunction local.make_github_link]}]>
       (sphinx.domain_roles r)).

(** A process whose one application has the domain and its role
    registered already. *)
Definition app_with_swoc : world :=
  World ∅ (<[1%positive := with_swoc (sphinx.Registry ∅ ∅)]> ∅).

(** Nothing is registered under [swoc] yet. *)
Definition swoc_free (r : sphinx.registry) : Prop :=
  sphinx.domains r !! "swoc" = None /\
  sphinx.domain_roles r !! "swoc" = None.

(** * Strings *)

Section strings.

Lemma append_nil (t : string) : "" +:+ t = t.
Proof. reflexivity. Qed.

Lemma append_cons a (s t : string) : String a s +:+ t = String a (s +:+ t).
Proof. reflexivity. Qed.

Lemma append_empty_r (s : string) : s +:+ "" = s.
Proof.
  induction s as [|a s IH]; [done |]. by rewrite append_cons, IH.
Qed.

Lemma length_append (a b : string) :
  String.length (a +:+ b) = (String.length a + String.length b)%nat.
Proof.
  induction a as [|x a IH]; [done |]. rewrite append_cons. simpl.
  by rewrite IH.
Qed.

Lemma drop_append (a b : string) : Str.drop (String.length a) (a +:+ b) = b.
Proof.
  induction a as [|x a IH]; [by destruct b |]. by rewrite append_cons.
Qed.

Lemma rfind_from_absent c s pos last :
  Str.contains c s = false -> Str.rfind_from c s pos last = last.
Proof.
  revert pos last. induction s as [|a s IH]; intros pos last H; simpl in *.
  - done.
  - apply orb_false_iff in H as [-> Hs]. by apply IH.
Qed.

(** The last occurrence wins whatever came before it. *)
Lemma rfind_from_last c a b pos last :
  Str.contains c b = false ->
  Str.rfind_from c (a +:+ String c b) pos last
  = pos + Str.len a.
Proof.
  revert pos last. induction a as [|x a IH]; intros pos last Hb.
  - rewrite append_nil. simpl.
    rewrite Ascii.eqb_refl. rewrite rfind_from_absent by done.
    unfold Str.len. simpl. lia.
  - rewrite append_cons. simpl.
    rewrite IH by done. unfold Str.len. simpl String.length. lia.
Qed.

Lemma contains_append c a b :
  Str.contains c (a +:+ b) = Str.contains c a || Str.contains c b.
Proof.
  induction a as [|x a IH]; [done |].
  rewrite append_cons. simpl. rewrite IH. by rewrite orb_assoc.
Qed.

(** A string with a separator splits at its last separator. *)
Lemma split_at_last c s :
  Str.contains c s = true ->
  exists a b, s = a +:+ String c b /\ Str.contains c b = false.
Proof.
  induction s as [|x s IH]; simpl; [done |].
  intros H. destruct (Str.contains c s) eqn:Hs.
  - destruct IH as (a & b & -> & Hb); [done |].
    by exists (String x a), b.
  - rewrite orb_false_r in H. apply Ascii.eqb_eq in H as ->.
    by exists "", s.
Qed.

Lemma basename_no_sep p :
  Str.contains posixpath.sep p = false -> posixpath.basename p = p.
Proof.
  intros H. unfold posixpath.basename, Str.rfind.
  by rewrite rfind_from_absent.
Qed.

Lemma basename_after_last_sep a b :
  Str.contains posixpath.sep b = false ->
  posixpath.basename (a +:+ String posixpath.sep b) = b.
Proof.
  intros H. unfold posixpath.basename, Str.rfind, Str.slice_from.
  rewrite rfind_from_last by done.
  assert ((0 + Str.len a + 1 <? 0) = false) as ->.
  { apply Z.ltb_ge. unfold Str.len. lia. }
  replace (Z.to_nat (0 + Str.len a + 1))
    with (String.length (a +:+ String posixpath.sep "")).
  2:{ rewrite length_append. unfold Str.len. simpl. lia. }
  replace (a +:+ String posixpath.sep b)
    with ((a +:+ String posixpath.sep "") +:+ b).
  - apply drop_append.
  - clear. induction a as [|x a IH]; [done |].
    by rewrite !append_cons, IH.
Qed.

Lemma remove_pair_absent a b s :
  Str.contains a s = false -> utils.remove_pair a b s = s.
Proof.
  induction s as [|x s IH]; [done |]. simpl. intros H.
  apply orb_false_iff in H as [Hx Hs]. destruct s as [|y s']; [done |].
  change (utils.remove_pair a b (String x (String y s')))
    with (if Ascii.eqb x a && Ascii.eqb y b
          then utils.remove_pair a b s'
          else String x (utils.remove_pair a b (String y s'))).
  rewrite Hx. cbn [andb]. by rewrite IH.
Qed.

Lemma remove_char_absent a s :
  Str.contains a s = false -> utils.remove_char a s = s.
Proof.
  induction s as [|x s IH]; [done |]. simpl. intros H.
  apply orb_false_iff in H as [Hx Hs]. rewrite Hx. by rewrite IH.
Qed.

(** A backslash before an underscore in the markup is gone from the
    rendered text. *)
Lemma unescape_escaped_underscore :
  utils.unescape ("a" +:+ String utils.nul "_b.h") = "a_b.h".
Proof. reflexivity. Qed.

(** A text that holds no NUL is its own rendering. *)
Lemma unescape_without_nul s :
  Str.contains utils.nul s = false -> utils.unescape s = s.
Proof.
  intros H. unfold utils.unescape.
  rewrite (remove_pair_absent _ " "%char s) by done.
  rewrite remove_pair_absent by done. by apply remove_char_absent.
Qed.

Lemma format_github text :
  Format.format "https://github.com/SolidWallOfCode/libswoc/blob/{}/{}"
    ["master"; text]
  = Ok (github_blob_master +:+ text).
Proof.
  cbn. rewrite append_empty_r. unfold github_blob_master.
  by rewrite !append_cons, append_nil.
Qed.

End strings.

(** * Reasoning about runs *)

Section wp_rules.
Context {St : Type}.

Lemma wp_ret {A} (a : A) (Q : result A -> St -> Prop) s :
  Q (Ok a) s -> wp (mret a) Q s.
Proof. done. Qed.

Lemma wp_raise {A} e (Q : result A -> St -> Prop) s :
  Q (Raise e) s -> wp (raise e) Q s.
Proof. done. Qed.

Lemma wp_lift {A} (r : result A) (Q : result A -> St -> Prop) s :
  Q r s -> wp (lift r) Q s.
Proof. done. Qed.

Lemma wp_bind {A B} (m : M St A) (k : A -> M St B) Q s :
  wp m (fun r s' =>
          match r with
          | Ok a => wp (k a) Q s'
          | Raise e => Q (Raise e) s'
          end) s ->
  wp (m ≫= k) Q s.
Proof.
  unfold wp, mbind, M_bind. destruct (m s) as [[a|e] s']; simpl; done.
Qed.

Lemma wp_mono {A} (m : M St A) (Q Q' : result A -> St -> Prop) s :
  wp m Q s -> (forall r s', Q r s' -> Q' r s') -> wp m Q' s.
Proof. unfold wp. auto. Qed.

Lemma wp_and {A} (m : M St A) (Q1 Q2 : result A -> St -> Prop) s :
  wp m Q1 s -> wp m Q2 s -> wp m (fun r s' => Q1 r s' /\ Q2 r s') s.
Proof. unfold wp. auto. Qed.

Lemma wp_any {A} (m : M St A) s : wp m (fun _ _ => True) s.
Proof. done. Qed.

Lemma wp_run {A} (m : M St A) Q s :
  wp m Q s -> exists r s', m s = (r, s') /\ Q r s'.
Proof. unfold wp. destruct (m s) as [r s']. eauto. Qed.

End wp_rules.

Section heap_rules.
Implicit Types (h : heap) (v : pyval).

Lemma wp_alloc o (Q : result loc -> heap -> Prop) h :
  (forall l, h !! l = None -> Q (Ok l) (<[l := o]> h)) ->
  wp (Heap.alloc o) Q h.
Proof.
  intros H. unfold wp, Heap.alloc. simpl. apply H.
  apply not_elem_of_dom. apply is_fresh.
Qed.

Lemma wp_deref l (Q : result pyobj -> heap -> Prop) h :
  match h !! l with
  | Some o => Q (Ok o) h
  | None => Q (Raise Dangling) h
  end ->
  wp (Heap.deref l) Q h.
Proof. unfold wp, Heap.deref. by destruct (h !! l). Qed.

Lemma sliceable_mono h h' v :
  h ⊆ h' -> sliceable h v = true -> sliceable h' v = true.
Proof.
  intros Hsub. destruct v as [| | | |l]; simpl; try done.
  destruct (h !! l) as [o|] eqn:E; [|done].
  by rewrite (lookup_weaken _ _ _ _ E Hsub).
Qed.

(** Slicing only adds to the store; it returns exactly when the value
    is sliceable, and a live value that is not raises [TypeError]. *)
Lemma wp_slice_all h v :
  wp (Heap.slice_all v)
     (fun r h' =>
        h ⊆ h' /\
        if sliceable h v then exists v', r = Ok v'
        else (forall l, v = VRef l -> is_Some (h !! l)) ->
             r = Raise TypeError /\ h' = h) h.
Proof.
  destruct v as [| | | |l]; simpl;
    try (by apply wp_raise; split; [done | intros _]).
  - apply wp_ret. split; [done | eauto].
  - apply wp_bind, wp_deref. destruct (h !! l) as [[items|items]|] eqn:E.
    + apply wp_bind, wp_alloc. intros l' Hl'. apply wp_ret.
      split; [by apply insert_subseteq | eauto].
    + by apply wp_raise.
    + simpl. split; [done |]. intros H.
      destruct (H l eq_refl) as [o Ho]. congruence.
Qed.

End heap_rules.

(** * The node constructor *)

Section constructor.
Implicit Types (h : heap) (d : gmap string pyval)
  (items : list (string * pyval)).

(** A loop whose body only adds to the store only adds to the store. *)
Lemma wp_for_each_frame {A B} (xs : list A) (body : B -> A -> M heap B) :
  (forall acc x h, wp (body acc x) (fun _ h' => h ⊆ h') h) ->
  forall acc h, wp (for_each xs body acc) (fun _ h' => h ⊆ h') h.
Proof.
  intros Hbody. induction xs as [|x xs IH]; intros acc h; simpl.
  - by apply wp_ret.
  - apply wp_bind. eapply wp_mono; [apply Hbody |].
    intros [acc'|e] h1 H1; simpl; [|done].
    eapply wp_mono; [apply IH |]. simpl. intros _ h2 H2. by etrans.
Qed.

Lemma wp_init_list_attribute d att h :
  wp (nodes.init_list_attribute d att)
     (fun r h' => h ⊆ h' /\ exists l, r = Ok (<[att := VRef l]> d)) h.
Proof.
  apply wp_bind, wp_alloc. intros l Hl. apply wp_ret.
  split; [by apply insert_subseteq | eauto].
Qed.

Lemma wp_init_list_attributes atts : forall d h,
  wp (for_each atts nodes.init_list_attribute d)
     (fun r h' =>
        h ⊆ h' /\
        exists d', r = Ok d' /\ forall a, a ∉ atts -> d' !! a = d !! a) h.
Proof.
  induction atts as [|x atts IH]; intros d h; simpl.
  - apply wp_ret. eauto.
  - apply wp_bind. eapply wp_mono; [apply wp_init_list_attribute |].
    simpl. intros r h1 (H1 & l & ->).
    eapply wp_mono; [apply IH |]. simpl.
    intros r h2 (H2 & d' & -> & Hd'). split; [by etrans |].
    exists d'. split; [done |]. intros a Ha.
    apply not_elem_of_cons in Ha as [Hax Ha].
    rewrite Hd' by done. by rewrite lookup_insert_ne.
Qed.

Lemma wp_set_attribute_frame d kv h :
  wp (nodes.set_attribute d kv) (fun _ h' => h ⊆ h') h.
Proof.
  unfold nodes.set_attribute. case_bool_decide; [|by apply wp_ret].
  apply wp_bind. eapply wp_mono; [apply wp_slice_all |].
  simpl. intros [v|e] h1 [H1 _]; [by apply wp_ret | done].
Qed.

(** The keywords are all stored when each is storable, and then an
    attribute no keyword names keeps the value it had. *)
Lemma wp_set_attributes_ok h0 items : forall d h,
  h0 ⊆ h -> forallb (storable h0) items = true ->
  wp (for_each items nodes.set_attribute d)
     (fun r h' =>
        h ⊆ h' /\
        exists d', r = Ok d' /\
          forall a, (forall kv, kv ∈ items -> Str.lower kv.1 ≠ a) ->
                    d' !! a = d !! a) h.
Proof.
  induction items as [|kv items IH]; intros d h Hsub Hall; simpl.
  - apply wp_ret. eauto.
  - simpl in Hall. apply andb_true_iff in Hall as [Hkv Hall].
    apply wp_bind.
    assert (wp (nodes.set_attribute d kv)
              (fun r h1 => h ⊆ h1 /\
                 exists v, r = Ok (<[Str.lower kv.1 := v]> d)) h) as Hstep.
    { unfold nodes.set_attribute, storable in *.
      case_bool_decide; [|apply wp_ret; eauto].
      apply wp_bind. eapply wp_mono; [apply wp_slice_all |].
      simpl. intros r h1 [H1 Hr].
      rewrite (sliceable_mono h0 h) in Hr by done.
      destruct Hr as [v ->]. apply wp_ret. eauto. }
    eapply wp_mono; [apply Hstep |]. simpl.
    intros r h1 (H1 & v & ->).
    eapply wp_mono; [apply IH; [by etrans | done] |]. simpl.
    intros r h2 (H2 & d' & -> & Hd'). split; [by etrans |].
    exists d'. split; [done |]. intros a Ha.
    rewrite Hd'.
    + rewrite lookup_insert_ne; [done |]. apply Ha. by left.
    + intros kv' Hin. apply Ha. by right.
Qed.

End constructor.

Section element.
Implicit Types (h : heap) (items : list (string * pyval)).

Lemma wp_Element_init_frame cls rawsource children kwargs h :
  wp (nodes.Element_init cls rawsource children kwargs)
     (fun _ h' => h ⊆ h') h.
Proof.
  apply wp_bind. eapply wp_mono.
  { apply (wp_for_each_frame nodes.list_attributes). intros acc x h1.
    eapply wp_mono; [apply wp_init_list_attribute |]. by intros ? ? [? _]. }
  simpl. intros [d0|e] h1 H1; [|done].
  apply wp_bind. eapply wp_mono.
  { apply (wp_for_each_frame kwargs), wp_set_attribute_frame. }
  simpl. intros [d1|e] h2 H2; [apply wp_ret|]; by etrans.
Qed.

(** With a first keyword that is not a list attribute and storable
    further keywords the element is built; the first keyword keeps its
    value unless a later one has the same lower-cased name. *)
Lemma wp_Element_init_ok cls rawsource children k0 v0 items h :
  Str.lower k0 ∉ nodes.list_attributes ->
  forallb (storable h) items = true ->
  wp (nodes.Element_init cls rawsource children ((k0, v0) :: items))
     (fun r h' =>
        exists attrs,
          r = Ok (nodes.Node cls rawsource children attrs) /\
          ((forall kv, kv ∈ items -> Str.lower kv.1 ≠ Str.lower k0) ->
           attrs !! Str.lower k0 = Some v0)) h.
Proof.
  intros Hk0 Hall. apply wp_bind.
  eapply wp_mono; [apply wp_init_list_attributes |].
  simpl. intros r h1 (H1 & d0 & -> & _).
  apply wp_bind. simpl. apply wp_bind.
  unfold nodes.set_attribute at 1. simpl.
  rewrite bool_decide_eq_false_2 by done. apply wp_ret. simpl.
  eapply wp_mono; [by apply (wp_set_attributes_ok h) |].
  simpl. intros r h2 (H2 & d1 & -> & Hd1). apply wp_ret.
  eexists. split; [done |]. simpl. intros Hno.
  rewrite Hd1 by done. apply lookup_insert_eq.
Qed.

Lemma TextElement_init_children cls rawsource text kwargs :
  nodes.TextElement_init cls rawsource text kwargs
  = nodes.Element_init cls rawsource (text_children text) kwargs.
Proof.
  unfold nodes.TextElement_init, text_children. by case_bool_decide.
Qed.

(** Whatever the keywords, an element that is built has the class, the
    raw source and the children it was given. *)
Lemma wp_Element_init_shape cls rawsource children kwargs h :
  wp (nodes.Element_init cls rawsource children kwargs)
     (fun r _ =>
        forall n, r = Ok n ->
          nodes.tagname n = cls /\ nodes.rawsource n = rawsource /\
          nodes.children n = children) h.
Proof.
  apply wp_bind. eapply wp_mono; [apply wp_any |].
  simpl. intros [d0|e] h1 _; [|done].
  apply wp_bind. eapply wp_mono; [apply wp_any |].
  simpl. intros [d1|e] h2 _; [|done].
  apply wp_ret. by intros n [= <-].
Qed.

Lemma astext_text_child cls rawsource text attrs :
  nodes.astext (nodes.Node cls rawsource (text_children text) attrs)
  = utils.unescape text.
Proof.
  unfold nodes.astext, text_children. case_bool_decide as H; simpl.
  - apply append_empty_r.
  - destruct text; [reflexivity | discriminate H].
Qed.

Lemma overrides_refuri_false items :
  overrides_refuri items = false ->
  forall kv, kv ∈ items -> Str.lower kv.1 ≠ "refuri".
Proof.
  unfold overrides_refuri. intros H kv Hin Heq.
  assert (existsb (fun kv => bool_decide (Str.lower kv.1 = "refuri")) items
          = true) as Ht; [|congruence].
  apply existsb_exists. exists kv. split.
  - by apply list_elem_of_In.
  - by apply bool_decide_eq_true_2.
Qed.

End element.

(** * [make_github_link] *)

Section make_github_link.
Variables (name rawtext text : string) (lineno : Z) (inliner : pyval)
  (options content : loc).
Implicit Types (h : heap) (items : list (string * pyval)).

Lemma wp_call_TextElement_frame cls rawsource txt keywords star h :
  wp (nodes.call_TextElement cls rawsource txt keywords star)
     (fun _ h' => h ⊆ h') h.
Proof.
  apply wp_bind, wp_deref. destruct (h !! star) as [[xs|items]|]; simpl.
  - by apply wp_raise.
  - destruct (nodes.has_key_in _ items); [by apply wp_raise |].
    destruct (nodes.has_key_in _ _); [by apply wp_raise |].
    unfold nodes.TextElement_init.
    case_bool_decide; apply wp_Element_init_frame.
  - done.
Qed.

(** The store only grows: every object that was live is as it was. *)
Lemma make_github_link_frame h :
  wp (local.make_github_link name rawtext text lineno inliner options
        content)
     (fun _ h' => h ⊆ h') h.
Proof.
  apply wp_bind, wp_lift. destruct (Format.format _ _) as [uri|e]; [|done].
  apply wp_bind. eapply wp_mono; [apply wp_call_TextElement_frame |].
  simpl. intros [node|e] h' H; [by apply wp_ret | done].
Qed.

Lemma accepts_split h items :
  accepts h items = true ->
  nodes.has_key_in ["refuri"] items = false /\
  nodes.has_key_in nodes.positional_names items = false /\
  forallb (storable h) items = true.
Proof.
  unfold accepts. intros H.
  apply andb_true_iff in H as [H H3]. apply andb_true_iff in H as [H1 H2].
  apply negb_true_iff in H1, H2. done.
Qed.

(** On accepted options the function returns one reference node and no
    messages; the node shows the basename of the path and, unless an
    option overrides it, links to the path on the fixed reference. *)
Lemma make_github_link_ok h items :
  h !! options = Some (ODict items) ->
  accepts h items = true ->
  wp (local.make_github_link name rawtext text lineno inliner options
        content)
     (fun r h' =>
        exists node,
          r = Ok ([node], []) /\
          nodes.tagname node = nodes.reference /\
          nodes.rawsource node = rawtext /\
          nodes.children node = text_children (posixpath.basename text) /\
          nodes.astext node = utils.unescape (posixpath.basename text) /\
          (overrides_refuri items = false ->
           nodes.get node "refuri"
           = Some (VStr (github_blob_master +:+ text)))) h.
Proof.
  intros Hopt (H1 & H2 & H3)%accepts_split.
  apply wp_bind, wp_lift. rewrite format_github.
  apply wp_bind. unfold nodes.call_TextElement.
  apply wp_bind, wp_deref. rewrite Hopt. simpl.
  rewrite H1. unfold nodes.has_key_in at 1. simpl existsb.
  fold (nodes.has_key_in nodes.positional_names items). rewrite H2.
  simpl. rewrite TextElement_init_children.
  eapply wp_mono.
  { apply wp_Element_init_ok; [|done].
    intros ?%list_elem_of_In. simpl in *. intuition discriminate. }
  simpl. intros r h' (attrs & -> & Hattrs). apply wp_ret.
  eexists. split; [done |]. simpl.
  split; [done |]. split; [done |]. split; [done |].
  split; [apply astext_text_child |].
  intros Hno. apply Hattrs. by apply overrides_refuri_false.
Qed.

(** A normal return is always one reference node and no messages. *)
Lemma make_github_link_shape h :
  wp (local.make_github_link name rawtext text lineno inliner options
        content)
     (fun r _ =>
        forall ns ms, r = Ok (ns, ms) ->
          ms = [] /\
          exists node, ns = [node] /\
            nodes.tagname node = nodes.reference /\
            nodes.rawsource node = rawtext /\
            nodes.children node = text_children (posixpath.basename text)) h.
Proof.
  apply wp_bind, wp_lift. destruct (Format.format _ _) as [uri|e]; [|done].
  apply wp_bind. unfold nodes.call_TextElement.
  apply wp_bind, wp_deref. destruct (h !! options) as [[xs|items]|]; simpl;
    [done | | done].
  destruct (nodes.has_key_in _ items); [done |].
  destruct (nodes.has_key_in _ _); [done |].
  rewrite TextElement_init_children.
  eapply wp_mono; [apply wp_Element_init_shape |].
  simpl. intros [node|e] h' H; [|done].
  apply wp_ret. intros ns ms [= <- <-]. split; [done |].
  exists node. split; [done |]. by apply H.
Qed.

End make_github_link.

(** * More on the keywords of the node constructor *)

Section keywords.
Implicit Types (h : heap) (d : gmap string pyval)
  (items pre post : list (string * pyval)).

(** One storable keyword is stored, under its lower-cased name; unless
    it is a list attribute the value stored is the value given. *)
Lemma wp_set_attribute_ok h0 d kv h :
  h0 ⊆ h -> storable h0 kv = true ->
  wp (nodes.set_attribute d kv)
     (fun r h1 =>
        h ⊆ h1 /\
        exists v, r = Ok (<[Str.lower kv.1 := v]> d) /\
                  (Str.lower kv.1 ∉ nodes.list_attributes -> v = kv.2)) h.
Proof.
  intros Hsub Hkv. unfold nodes.set_attribute, storable in *.
  case_bool_decide; [|apply wp_ret; eauto].
  apply wp_bind. eapply wp_mono; [apply wp_slice_all |].
  simpl. intros r h1 [H1 Hr].
  rewrite (sliceable_mono h0 h) in Hr by done.
  destruct Hr as [v ->]. apply wp_ret. split; [done |].
  exists v. split; [done |]. by intros [].
Qed.

(** Slicing a list makes a copy at an address that was not live. *)
Lemma wp_slice_all_list h l xs :
  h !! l = Some (OList xs) ->
  wp (Heap.slice_all (VRef l))
     (fun r h' =>
        exists l', r = Ok (VRef l') /\ h !! l' = None /\
                   h' = <[l' := OList xs]> h) h.
Proof.
  intros Hl. simpl. apply wp_bind, wp_deref. rewrite Hl.
  apply wp_bind, wp_alloc. intros l' Hl'. apply wp_ret. eauto.
Qed.

(** Among storable keywords the last one of a name wins: a keyword that
    is no list attribute, with no later keyword of the same lower-cased
    name, ends up as the attribute, by reference. *)
Lemma wp_set_attributes_last h0 pre k v post : forall d h,
  h0 ⊆ h ->
  forallb (storable h0) (pre ++ (k, v) :: post)%list = true ->
  Str.lower k ∉ nodes.list_attributes ->
  (forall kv, kv ∈ post -> Str.lower kv.1 ≠ Str.lower k) ->
  wp (for_each (pre ++ (k, v) :: post)%list nodes.set_attribute d)
     (fun r _ => exists d', r = Ok d' /\ d' !! Str.lower k = Some v) h.
Proof.
  induction pre as [|kv pre IH]; intros d h Hsub Hall Hk Hpost;
    simpl in Hall; apply andb_true_iff in Hall as [Hkv Hall]; simpl;
    apply wp_bind;
    (eapply wp_mono; [by apply (wp_set_attribute_ok h0) |]);
    simpl; intros r h1 (H1 & v' & -> & Hv').
  - rewrite Hv' by done. simpl.
    eapply wp_mono; [apply (wp_set_attributes_ok h0); [by etrans | done] |].
    simpl. intros r h2 (_ & d' & -> & Hd').
    exists d'. split; [done |]. rewrite Hd' by done. apply lookup_insert_eq.
  - apply IH; [by etrans | done..].
Qed.

(** A list given for a list attribute, with no later keyword of the same
    lower-cased name, ends up as a copy: the attribute refers to a list
    with the same items at an address that was not live. *)
Lemma wp_set_attributes_copy h0 pre k l xs post : forall d h,
  h0 ⊆ h ->
  forallb (storable h0) (pre ++ (k, VRef l) :: post)%list = true ->
  h0 !! l = Some (OList xs) ->
  Str.lower k ∈ nodes.list_attributes ->
  (forall kv, kv ∈ post -> Str.lower kv.1 ≠ Str.lower k) ->
  wp (for_each (pre ++ (k, VRef l) :: post)%list nodes.set_attribute d)
     (fun r h' =>
        exists d' l',
          r = Ok d' /\ d' !! Str.lower k = Some (VRef l') /\
          h0 !! l' = None /\ h' !! l' = Some (OList xs)) h.
Proof.
  induction pre as [|kv pre IH]; intros d h Hsub Hall Hl Hk Hpost;
    simpl in Hall; apply andb_true_iff in Hall as [Hkv Hall]; simpl;
    apply wp_bind.
  - unfold nodes.set_attribute. simpl.
    rewrite bool_decide_eq_true_2 by done. apply wp_bind.
    eapply wp_mono;
      [apply (wp_slice_all_list h l xs); by eapply lookup_weaken |].
    simpl. intros r h1 (l' & -> & Hl' & ->). apply wp_ret. simpl.
    eapply wp_mono.
    { apply (wp_set_attributes_ok h0); [|done].
      etrans; [done |]. by apply insert_subseteq. }
    simpl. intros r h2 (H2 & d' & -> & Hd').
    exists d', l'. split; [done |].
    split; [rewrite Hd' by done; apply lookup_insert_eq |].
    split.
    + destruct (h0 !! l') as [o|] eqn:E; [|done].
      by rewrite (lookup_weaken _ _ _ _ E Hsub) in Hl'.
    + eapply lookup_weaken; [|done]. apply lookup_insert_eq.
  - eapply wp_mono; [by apply (wp_set_attribute_ok h0) |].
    simpl. intros r h1 (H1 & v' & -> & Hv').
    apply IH; [by etrans | done..].
Qed.

End keywords.

Section accepted_call.
Variables (name rawtext text : string) (lineno : Z) (inliner : pyval)
  (options content : loc).
Implicit Types (h : heap) (items pre post : list (string * pyval)).

(** On accepted options the call comes down to the element constructor
    with the computed link as the first keyword. *)
Lemma wp_make_github_link_accepted
    (Q : result (list nodes.node * list nodes.node) -> heap -> Prop)
    h items :
  h !! options = Some (ODict items) ->
  accepts h items = true ->
  wp (nodes.Element_init nodes.reference rawtext
        (text_children (posixpath.basename text))
        (("refuri", VStr (github_blob_master +:+ text)) :: items))
     (fun r h' =>
        match r with
        | Ok node => Q (Ok ([node], [])) h'
        | Raise e => Q (Raise e) h'
        end) h ->
  wp (local.make_github_link name rawtext text lineno inliner options
        content) Q h.
Proof.
  intros Hopt (H1 & H2 & H3)%accepts_split HQ.
  apply wp_bind, wp_lift. rewrite format_github.
  apply wp_bind. unfold nodes.call_TextElement.
  apply wp_bind, wp_deref. rewrite Hopt. simpl.
  rewrite H1. unfold nodes.has_key_in at 1. simpl existsb.
  fold (nodes.has_key_in nodes.positional_names items). rewrite H2.
  simpl. rewrite TextElement_init_children.
  eapply wp_mono; [exact HQ |].
  simpl. by intros [node|e] h' H.
Qed.

(** The element constructor, started after the list attributes are
    initialised, runs the loop over the keywords. *)
Lemma wp_Element_init_keywords cls rawsource children kwargs
    (P : gmap string pyval -> heap -> Prop) h :
  (forall d h1, h ⊆ h1 ->
     wp (for_each kwargs nodes.set_attribute d)
        (fun r h' => exists d', r = Ok d' /\ P d' h') h1) ->
  wp (nodes.Element_init cls rawsource children kwargs)
     (fun r h' =>
        exists attrs,
          r = Ok (nodes.Node cls rawsource children attrs) /\ P attrs h') h.
Proof.
  intros Hloop. apply wp_bind.
  eapply wp_mono; [apply wp_init_list_attributes |].
  simpl. intros r h1 (H1 & d0 & -> & _).
  apply wp_bind. eapply wp_mono; [by apply Hloop |].
  simpl. intros r h2 (d' & -> & HP). apply wp_ret. eauto.
Qed.

Lemma storable_refuri h v : storable h ("refuri", VStr v) = true.
Proof. reflexivity. Qed.

End accepted_call.

(** * The link generator: display text and link *)

Section link.
Variables (name rawtext : string) (lineno : Z) (inliner : pyval)
  (options content : loc).
Implicit Types (h : heap) (items : list (string * pyval)) (p text : string).

Lemma plain_options_split h items :
  plain_options h items = true ->
  accepts h items = true /\ overrides_refuri items = false.
Proof.
  unfold plain_options. intros [H1 H2]%andb_true_iff.
  by apply negb_true_iff in H2.
Qed.

(** On plain options the call returns one reference node, showing the
    basename of the path and linking to the whole path. *)
Lemma make_github_link_plain text h items :
  h !! options = Some (ODict items) ->
  plain_options h items = true ->
  exists node h',
    local.make_github_link name rawtext text lineno inliner options content h
    = (Ok ([node], []), h') /\
    nodes.tagname node = nodes.reference /\
    nodes.rawsource node = rawtext /\
    nodes.children node = text_children (posixpath.basename text) /\
    nodes.astext node = utils.unescape (posixpath.basename text) /\
    nodes.get node "refuri" = Some (VStr (github_blob_master +:+ text)).
Proof.
  intros Hopt [Hacc Hno]%plain_options_split.
  destruct (wp_run _ _ _ (make_github_link_ok name rawtext text lineno
                            inliner options content h items Hopt Hacc))
    as (r & h' & Hrun & node & -> & Htag & Hraw & Hch & Htxt & Huri).
  exists node, h'. by rewrite Huri.
Qed.

(** On accepted options, an option that is no list attribute and that no
    later option repeats up to letter case is an attribute of the node. *)
Lemma make_github_link_last_option text h pre post k v :
  h !! options = Some (ODict (pre ++ (k, v) :: post)%list) ->
  accepts h (pre ++ (k, v) :: post)%list = true ->
  Str.lower k ∉ nodes.list_attributes ->
  (forall kv, kv ∈ post -> Str.lower kv.1 ≠ Str.lower k) ->
  exists node h',
    local.make_github_link name rawtext text lineno inliner options content h
    = (Ok ([node], []), h') /\
    nodes.get node (Str.lower k) = Some v.
Proof.
  intros Hopt Hacc Hk Hpost.
  pose proof (accepts_split _ _ Hacc) as (_ & _ & Hall).
  assert (wp (local.make_github_link name rawtext text lineno inliner
                options content)
             (fun r _ => exists node,
                r = Ok ([node], []) /\
                nodes.get node (Str.lower k) = Some v) h) as Hwp.
  { apply (wp_make_github_link_accepted name rawtext text lineno inliner
             options content _ h _ Hopt Hacc).
    eapply wp_mono.
    { apply (wp_Element_init_keywords nodes.reference rawtext _ _
               (fun d _ => d !! Str.lower k = Some v)).
      intros d h1 H1.
      eapply wp_mono.
      { apply (wp_set_attributes_last h
                 (("refuri", VStr (github_blob_master +:+ text)) :: pre)
                 k v post d h1 H1); [|done..].
        by simpl. }
      simpl. intros r h2 (d' & -> & Hd'). eauto. }
    simpl. intros r h' (attrs & -> & Hattrs). eauto. }
  destruct (wp_run _ _ _ Hwp) as (r & h' & Hrun & node & -> & Hget).
  by exists node, h'.
Qed.

(** What the host passes is plain. *)
Lemma host_supplied_plain h items :
  host_supplied h items -> plain_options h items = true.
Proof.
  intros [->|(k & l & xs & -> & [->| ->] & Hl)]; [reflexivity | reflexivity |].
  unfold plain_options, accepts, storable. simpl. by rewrite Hl.
Qed.

End link.

(** * The properties of the link generator *)

(** Running the [def] statement on the empty store leaves the two default
    objects at the addresses the examples below use. *)
Lemma store_after_def :
  local.def_make_github_link ∅ = (Ok defaults0, store_with_options []).
Proof. reflexivity. Qed.

(** C1: for a non-empty path [p] with no separator, [make_github_link]
    (on plain options, the default among them) returns a reference node
    whose one child is the text [p], so that the display text the node
    carries is [p] exactly, and whose link is
    [https://github.com/SolidWallOfCode/libswoc/blob/master/] followed by
    [p].  Rendered, the text is [p] without the NUL characters that stand
    for the backslashes of the markup, so [p] itself when it holds
    none. *)
Theorem link_of_plain_file_name
    (name rawtext p : string) (lineno : Z) (inliner : pyval)
    (options content : loc) (h : heap) (items : list (string * pyval)) :
  p ≠ "" ->
  Str.contains posixpath.sep p = false ->
  h !! options = Some (ODict items) ->
  plain_options h items = true ->
  exists node h',
    local.make_github_link name rawtext p lineno inliner options content h
    = (Ok ([node], []), h') /\
    nodes.tagname node = nodes.reference /\
    nodes.children node = [nodes.Text p] /\
    nodes.astext node = utils.unescape p /\
    (Str.contains utils.nul p = false -> nodes.astext node = p) /\
    nodes.get node "refuri"
    = Some (VStr ("https://github.com/SolidWallOfCode/libswoc/blob/master/"
                  +:+ p)).
Proof.
  intros Hne Hsep Hopt Hplain.
  destruct (make_github_link_plain name rawtext lineno inliner options
              content p h items Hopt Hplain)
    as (node & h' & Hrun & Htag & _ & Hch & Htxt & Huri).
  rewrite basename_no_sep in Hch, Htxt by done.
  exists node, h'. split; [done |]. split; [done |].
  split; [|split; [done |]; split; [|done]].
  - rewrite Hch. unfold text_children. by rewrite bool_decide_eq_true_2.
  - intros Hnul. rewrite Htxt. by apply unescape_without_nul.
Qed.

Lemma link_of_plain_file_name_witness :
  "README.md" ≠ "" /\
  Str.contains posixpath.sep "README.md" = false /\
  store_with_options [] !! 1%positive = Some (ODict []) /\
  plain_options (store_with_options []) [] = true /\
  exists node h',
    local.make_github_link "git" ":swoc:git:`README.md`" "README.md" 12 VNone
      1%positive 2%positive (store_with_options [])
    = (Ok ([node], []), h') /\
    nodes.tagname node = nodes.reference /\
    nodes.children node = [nodes.Text "README.md"] /\
    nodes.astext node = utils.unescape "README.md" /\
    (Str.contains utils.nul "README.md" = false ->
     nodes.astext node = "README.md") /\
    nodes.get node "refuri"
    = Some (VStr ("https://github.com/SolidWallOfCode/libswoc/blob/master/"
                  +:+ "README.md")).
Proof.
  split; [discriminate |]. split; [reflexivity |]. split; [reflexivity |].
  split; [reflexivity |].
  apply (link_of_plain_file_name "git" ":swoc:git:`README.md`" "README.md" 12
           VNone 1%positive 2%positive (store_with_options []) []);
    [discriminate | reflexivity | reflexivity | reflexivity].
Defined.

(** C2: for a path [p] with a separator, the display text the node
    carries is the segment of [p] after its last separator (one text
    child, or none when the segment is empty), and the link still holds
    the whole of [p].  Rendered, the text is that segment without the NUL
    characters that stand for the backslashes of the markup, so the
    segment itself when it holds none. *)
Theorem link_of_path_with_separator
    (name rawtext p : string) (lineno : Z) (inliner : pyval)
    (options content : loc) (h : heap) (items : list (string * pyval)) :
  Str.contains posixpath.sep p = true ->
  h !! options = Some (ODict items) ->
  plain_options h items = true ->
  exists node h' dir final,
    local.make_github_link name rawtext p lineno inliner options content h
    = (Ok ([node], []), h') /\
    p = dir +:+ String posixpath.sep final /\
    Str.contains posixpath.sep final = false /\
    nodes.children node = text_children final /\
    nodes.astext node = utils.unescape final /\
    (Str.contains utils.nul final = false -> nodes.astext node = final) /\
    nodes.get node "refuri"
    = Some (VStr ("https://github.com/SolidWallOfCode/libswoc/blob/master/"
                  +:+ p)).
Proof.
  intros Hsep Hopt Hplain.
  destruct (split_at_last _ _ Hsep) as (dir & final & Hp & Hfinal).
  destruct (make_github_link_plain name rawtext lineno inliner options
              content p h items Hopt Hplain)
    as (node & h' & Hrun & _ & _ & Hch & Htxt & Huri).
  assert (posixpath.basename p = final) as Hbase.
  { rewrite Hp. by apply basename_after_last_sep. }
  rewrite Hbase in Hch, Htxt.
  exists node, h', dir, final. repeat split; try done.
  intros Hnul. rewrite Htxt. by apply unescape_without_nul.
Qed.

Lemma link_of_path_with_separator_witness :
  Str.contains posixpath.sep "src/core/BufferWriter.cc" = true /\
  store_with_options [] !! 1%positive = Some (ODict []) /\
  plain_options (store_with_options []) [] = true /\
  exists node h' dir final,
    local.make_github_link "git" ":swoc:git:`src/core/BufferWriter.cc`"
      "src/core/BufferWriter.cc" 12 VNone 1%positive 2%positive
      (store_with_options [])
    = (Ok ([node], []), h') /\
    "src/core/BufferWriter.cc" = dir +:+ String posixpath.sep final /\
    Str.contains posixpath.sep final = false /\
    nodes.children node = text_children final /\
    nodes.astext node = utils.unescape final /\
    (Str.contains utils.nul final = false -> nodes.astext node = final) /\
    nodes.get node "refuri"
    = Some (VStr ("https://github.com/SolidWallOfCode/libswoc/blob/master/"
                  +:+ "src/core/BufferWriter.cc")).
Proof.
  split; [reflexivity |]. split; [reflexivity |]. split; [reflexivity |].
  apply (link_of_path_with_separator "git"
           ":swoc:git:`src/core/BufferWriter.cc`" "src/core/BufferWriter.cc"
           12 VNone 1%positive 2%positive (store_with_options []) []);
    reflexivity.
Defined.

(** C3, as stated, fails: an option whose key is [REFURI] is stored by the
    node constructor under the lower-cased name [refuri], after the link
    the function computed, and replaces it. *)
Lemma link_replaced_by_REFURI_option :
  ~ links_to_master "README.md" 1%positive
      (store_with_options [("REFURI", VStr "x")]).
Proof.
  intros H.
  destruct (local.make_github_link "git" ":swoc:git:`README.md`" "README.md"
              12 VNone 1%positive 2%positive
              (store_with_options [("REFURI", VStr "x")]))
    as [r h'] eqn:Hrun.
  vm_compute in Hrun. injection Hrun as <- <-.
  specialize (H "git" ":swoc:git:`README.md`" 12 VNone 2%positive
                _ _ _ eq_refl).
  vm_compute in H. discriminate H.
Qed.

(** C3, amended: for every path and all options the node constructor
    accepts, the call returns a node, and its link is the template with
    the literal [master] and the path put in whenever no option key is
    [refuri] up to the case of its letters: the reference is a constant of
    the function that no argument reaches.  When some accepted option has
    a key that lower-cases to [refuri], the link is the value of the last
    such option instead. *)
Theorem link_is_template_with_master
    (name rawtext text : string) (lineno : Z) (inliner : pyval)
    (options content : loc) (h : heap) (items : list (string * pyval)) :
  h !! options = Some (ODict items) ->
  accepts h items = true ->
  exists node h',
    local.make_github_link name rawtext text lineno inliner options content h
    = (Ok ([node], []), h') /\
    (overrides_refuri items = false ->
     nodes.get node "refuri"
     = Some (VStr ("https://github.com/SolidWallOfCode/libswoc/blob/"
                   +:+ "master" +:+ "/" +:+ text))) /\
    (forall pre k v post,
       items = (pre ++ (k, v) :: post)%list ->
       Str.lower k = "refuri" ->
       (forall kv, kv ∈ post -> Str.lower kv.1 ≠ "refuri") ->
       nodes.get node "refuri" = Some v).
Proof.
  intros Hopt Hacc.
  destruct (wp_run _ _ _ (make_github_link_ok name rawtext text lineno
                            inliner options content h items Hopt Hacc))
    as (r & h' & Hrun & node & -> & _ & _ & _ & _ & Huri).
  exists node, h'. split; [done |]. split; [exact Huri |].
  intros pre k v post -> Hk Hpost.
  destruct (make_github_link_last_option name rawtext lineno inliner options
              content text h pre post k v Hopt Hacc)
    as (node' & h'' & Hrun' & Hget).
  - rewrite Hk. intros H%list_elem_of_In. simpl in H. intuition discriminate.
  - by rewrite Hk.
  - rewrite Hrun in Hrun'. injection Hrun' as <- _. by rewrite <- Hk.
Qed.

Lemma link_is_template_with_master_witness :
  store_with_options [("classes", VRef 2%positive)] !! 1%positive
  = Some (ODict [("classes", VRef 2%positive)]) /\
  accepts (store_with_options [("classes", VRef 2%positive)])
    [("classes", VRef 2%positive)] = true /\
  exists node h',
    local.make_github_link "git" ":swoc:git:`no such file`" "no such file"
      12 VNone 1%positive 2%positive
      (store_with_options [("classes", VRef 2%positive)])
    = (Ok ([node], []), h') /\
    (overrides_refuri [("classes", VRef 2%positive)] = false ->
     nodes.get node "refuri"
     = Some (VStr ("https://github.com/SolidWallOfCode/libswoc/blob/"
                   +:+ "master" +:+ "/" +:+ "no such file"))) /\
    (forall pre k v post,
       [("classes", VRef 2%positive)] = (pre ++ (k, v) :: post)%list ->
       Str.lower k = "refuri" ->
       (forall kv, kv ∈ post -> Str.lower kv.1 ≠ "refuri") ->
       nodes.get node "refuri" = Some v).
Proof.
  split; [reflexivity |]. split; [reflexivity |].
  apply (link_is_template_with_master "git" ":swoc:git:`no such file`"
           "no such file" 12 VNone 1%positive 2%positive
           (store_with_options [("classes", VRef 2%positive)])
           [("classes", VRef 2%positive)]);
    reflexivity.
Defined.

(** C4: for every path, well formed or not, every content list and all
    the options the host passes (none, or the class names alone),
    [make_github_link] returns: it gives one reference node built from the
    raw text, with the basename of the path as its text and the link of
    the path, and no messages. *)
Theorem succeeds_on_host_options
    (name rawtext text : string) (lineno : Z) (inliner : pyval)
    (options content : loc) (h : heap) (items : list (string * pyval)) :
  h !! options = Some (ODict items) ->
  host_supplied h items ->
  exists node h',
    local.make_github_link name rawtext text lineno inliner options content h
    = (Ok ([node], []), h') /\
    nodes.tagname node = nodes.reference /\
    nodes.rawsource node = rawtext /\
    nodes.children node = text_children (posixpath.basename text) /\
    nodes.get node "refuri"
    = Some (VStr ("https://github.com/SolidWallOfCode/libswoc/blob/master/"
                  +:+ text)).
Proof.
  intros Hopt Hhost.
  destruct (make_github_link_plain name rawtext lineno inliner options
              content text h items Hopt (host_supplied_plain h items Hhost))
    as (node & h' & Hrun & Htag & Hraw & Hch & _ & Huri).
  by exists node, h'.
Qed.

Lemma succeeds_on_host_options_witness :
  store_with_options [("classes", VRef 2%positive)] !! 1%positive
  = Some (ODict [("classes", VRef 2%positive)]) /\
  host_supplied (store_with_options [("classes", VRef 2%positive)])
    [("classes", VRef 2%positive)] /\
  exists node h',
    local.make_github_link "git" ":swoc:git:`../??//`" "../??//" 12 VNone
      1%positive 2%positive
      (store_with_options [("classes", VRef 2%positive)])
    = (Ok ([node], []), h') /\
    nodes.tagname node = nodes.reference /\
    nodes.rawsource node = ":swoc:git:`../??//`" /\
    nodes.children node = text_children (posixpath.basename "../??//") /\
    nodes.get node "refuri"
    = Some (VStr ("https://github.com/SolidWallOfCode/libswoc/blob/master/"
                  +:+ "../??//")).
Proof.
  assert (host_supplied (store_with_options [("classes", VRef 2%positive)])
            [("classes", VRef 2%positive)]) as Hhost.
  { right. exists "classes", 2%positive, []. split; [reflexivity |].
    split; [by right | reflexivity]. }
  split; [reflexivity |]. split; [exact Hhost |].
  apply (succeeds_on_host_options "git" ":swoc:git:`../??//`" "../??//" 12
           VNone 1%positive 2%positive
           (store_with_options [("classes", VRef 2%positive)])
           [("classes", VRef 2%positive)]);
    [reflexivity | exact Hhost].
Defined.

(** C5: a call on accepted options returns exactly a one-element list
    holding the reference node built from the raw text, together with an
    empty list of messages; and whatever the options, anything the call
    returns has that shape. *)
Theorem returns_one_node_and_no_messages
    (name rawtext text : string) (lineno : Z) (inliner : pyval)
    (options content : loc) (h : heap) (items : list (string * pyval)) :
  h !! options = Some (ODict items) ->
  accepts h items = true ->
  (exists node h',
     local.make_github_link name rawtext text lineno inliner options content
       h
     = (Ok ([node], []), h') /\
     nodes.tagname node = nodes.reference /\
     nodes.rawsource node = rawtext) /\
  (forall options' content' h0 ns ms h',
     local.make_github_link name rawtext text lineno inliner options'
       content' h0
     = (Ok (ns, ms), h') ->
     ms = [] /\ exists node, ns = [node] /\
                             nodes.tagname node = nodes.reference).
Proof.
  intros Hopt Hacc. split.
  - destruct (wp_run _ _ _ (make_github_link_ok name rawtext text lineno
                              inliner options content h items Hopt Hacc))
      as (r & h' & Hrun & node & -> & Htag & Hraw & _).
    by exists node, h'.
  - intros options' content' h0 ns ms h' Hrun.
    pose proof (make_github_link_shape name rawtext text lineno inliner
                  options' content' h0) as Hshape.
    unfold wp in Hshape. rewrite Hrun in Hshape. simpl in Hshape.
    destruct (Hshape ns ms eq_refl) as (-> & node & -> & Htag & _).
    split; [done |]. by exists node.
Qed.

Lemma returns_one_node_and_no_messages_witness :
  store_with_options [] !! 1%positive = Some (ODict []) /\
  accepts (store_with_options []) [] = true /\
  (exists node h',
     local.make_github_link "git" ":swoc:git:`README.md`" "README.md" 12
       VNone 1%positive 2%positive (store_with_options [])
     = (Ok ([node], []), h') /\
     nodes.tagname node = nodes.reference /\
     nodes.rawsource node = ":swoc:git:`README.md`") /\
  (forall options' content' h0 ns ms h',
     local.make_github_link "git" ":swoc:git:`README.md`" "README.md" 12
       VNone options' content' h0
     = (Ok (ns, ms), h') ->
     ms = [] /\ exists node, ns = [node] /\
                             nodes.tagname node = nodes.reference).
Proof.
  split; [reflexivity |]. split; [reflexivity |].
  apply (returns_one_node_and_no_messages "git" ":swoc:git:`README.md`"
           "README.md" 12 VNone 1%positive 2%positive (store_with_options [])
           []);
    reflexivity.
Defined.

(** C6: for the empty path the node has no text child, so its display
    text is empty (the basename of the empty string), and the link is
    [https://github.com/SolidWallOfCode/libswoc/blob/master/]. *)
Theorem link_of_empty_path
    (name rawtext : string) (lineno : Z) (inliner : pyval)
    (options content : loc) (h : heap) (items : list (string * pyval)) :
  h !! options = Some (ODict items) ->
  plain_options h items = true ->
  posixpath.basename "" = "" /\
  exists node h',
    local.make_github_link name rawtext "" lineno inliner options content h
    = (Ok ([node], []), h') /\
    nodes.children node = [] /\
    nodes.astext node = "" /\
    nodes.get node "refuri"
    = Some (VStr "https://github.com/SolidWallOfCode/libswoc/blob/master/").
Proof.
  intros Hopt Hplain. split; [reflexivity |].
  destruct (make_github_link_plain name rawtext lineno inliner options
              content "" h items Hopt Hplain)
    as (node & h' & Hrun & _ & _ & Hch & Htxt & Huri).
  by exists node, h'.
Qed.

Lemma link_of_empty_path_witness :
  store_with_options [] !! 1%positive = Some (ODict []) /\
  plain_options (store_with_options []) [] = true /\
  posixpath.basename "" = "" /\
  exists node h',
    local.make_github_link "git" ":swoc:git:``" "" 12 VNone 1%positive
      2%positive (store_with_options [])
    = (Ok ([node], []), h') /\
    nodes.children node = [] /\
    nodes.astext node = "" /\
    nodes.get node "refuri"
    = Some (VStr "https://github.com/SolidWallOfCode/libswoc/blob/master/").
Proof.
  split; [reflexivity |]. split; [reflexivity |].
  apply (link_of_empty_path "git" ":swoc:git:``" 12 VNone 1%positive
           2%positive (store_with_options []) []);
    reflexivity.
Defined.

(** C9: for a path that ends in a separator the basename is empty, so the
    node has no text child and its display text is the empty string,
    while the link holds the whole path with its trailing separator. *)
Theorem link_of_path_with_trailing_separator
    (name rawtext dir : string) (lineno : Z) (inliner : pyval)
    (options content : loc) (h : heap) (items : list (string * pyval)) :
  h !! options = Some (ODict items) ->
  plain_options h items = true ->
  let p := dir +:+ String posixpath.sep "" in
  posixpath.basename p = "" /\
  exists node h',
    local.make_github_link name rawtext p lineno inliner options content h
    = (Ok ([node], []), h') /\
    nodes.children node = [] /\
    nodes.astext node = "" /\
    nodes.get node "refuri"
    = Some (VStr ("https://github.com/SolidWallOfCode/libswoc/blob/master/"
                  +:+ dir +:+ "/")).
Proof.
  intros Hopt Hplain p.
  assert (posixpath.basename p = "") as Hbase.
  { by apply basename_after_last_sep. }
  split; [done |].
  destruct (make_github_link_plain name rawtext lineno inliner options
              content p h items Hopt Hplain)
    as (node & h' & Hrun & _ & _ & Hch & Htxt & Huri).
  rewrite Hbase in Hch, Htxt. by exists node, h'.
Qed.

Lemma link_of_path_with_trailing_separator_witness :
  store_with_options [] !! 1%positive = Some (ODict []) /\
  plain_options (store_with_options []) [] = true /\
  posixpath.basename "a/b/" = "" /\
  exists node h',
    local.make_github_link "git" ":swoc:git:`a/b/`" "a/b/" 12 VNone
      1%positive 2%positive (store_with_options [])
    = (Ok ([node], []), h') /\
    nodes.children node = [] /\
    nodes.astext node = "" /\
    nodes.get node "refuri"
    = Some (VStr ("https://github.com/SolidWallOfCode/libswoc/blob/master/"
                  +:+ "a/b" +:+ "/")).
Proof.
  split; [reflexivity |]. split; [reflexivity |].
  apply (link_of_path_with_trailing_separator "git" ":swoc:git:`a/b/`" "a/b"
           12 VNone 1%positive 2%positive (store_with_options []) []);
    reflexivity.
Defined.

(** C10: the outcome of [make_github_link] is a function of the raw text,
    the text, the options and the store alone: calls that differ in the
    role name, the line number, the inliner and the content give the same
    nodes, messages and store.  The call changes no object that was live,
    so none of its arguments, and a call that leaves the options and
    content out leaves the shared default objects as they were. *)
Theorem depends_on_rawtext_text_options_only
    (name1 name2 rawtext text : string) (lineno1 lineno2 : Z)
    (inliner1 inliner2 : pyval) (options content1 content2 : loc)
    (d : local.defaults) (h : heap) :
  local.make_github_link name1 rawtext text lineno1 inliner1 options content1
    h
  = local.make_github_link name2 rawtext text lineno2 inliner2 options
      content2 h /\
  h ⊆ (local.make_github_link name1 rawtext text lineno1 inliner1 options
         content1 h).2 /\
  h ⊆ (local.call_make_github_link d name1 rawtext text lineno1 inliner1 None
         None h).2.
Proof.
  split; [reflexivity |]. split.
  - apply (make_github_link_frame name1 rawtext text lineno1 inliner1 options
             content1 h).
  - apply (make_github_link_frame name1 rawtext text lineno1 inliner1
             (local.default_options d) (local.default_content d) h).
Qed.

(** * Registration *)

Section setup.
Implicit Types (a b : app) (w : world) (r : sphinx.registry).

Lemma setup_unfold a w :
  local.setup a w
  = (on_app a (sphinx.add_domain local.SWOCDomain);;
     on_app a (sphinx.add_role_to_domain "swoc" "git"
                 (RoleFunction local.make_github_link)))
      (World (with_generic_roles (role_registry w)) (apps w)).
Proof. reflexivity. Qed.

(** On an application with nothing under [swoc], [setup] returns and
    leaves exactly the three generic roles in the role table and the
    domain with its role in the registry of the application. *)
Lemma setup_fresh a w r :
  apps w !! a = Some r ->
  swoc_free r ->
  local.setup a w
  = (Ok (), World (with_generic_roles (role_registry w))
                  (<[a := with_swoc r]> (apps w))).
Proof.
  intros Ha [Hdom Hroles]. rewrite setup_unfold.
  unfold mbind, M_bind, on_app. simpl. rewrite Ha.
  unfold sphinx.add_domain. simpl. rewrite Hdom.
  rewrite bool_decide_eq_false_2 by (by intros [? [=]]).
  simpl. rewrite lookup_insert_eq.
  unfold sphinx.add_role_to_domain. simpl. rewrite lookup_insert_eq.
  rewrite bool_decide_eq_true_2 by eauto.
  rewrite Hroles. simpl. rewrite lookup_empty.
  rewrite bool_decide_eq_false_2 by (by intros [? [=]]).
  simpl. rewrite insert_insert_eq. reflexivity.
Qed.

(** Whatever happens, [setup] on [a] leaves the registry of any other
    application as it was. *)
Lemma setup_other_app a b w :
  a ≠ b -> apps (local.setup a w).2 !! b = apps w !! b.
Proof.
  intros Hab. rewrite setup_unfold.
  unfold mbind, M_bind, on_app. simpl.
  destruct (apps w !! a) as [r|] eqn:Ha; simpl; [|done].
  destruct (sphinx.add_domain local.SWOCDomain r) as [[[]|e] r1]; simpl.
  - rewrite lookup_insert_eq.
    destruct (sphinx.add_role_to_domain _ _ _ r1) as [x r2]; simpl.
    by rewrite !lookup_insert_ne.
  - by rewrite lookup_insert_ne.
Qed.

End setup.

(** C7: called with an application that has nothing under [swoc] yet,
    [setup] returns and does three kinds of registration and nothing
    else: the generic roles [arg], [const] and [pack] for the emphasis,
    literal and strong node classes in the role table of docutils, the
    domain named [swoc] in the registry of the application, and
    [make_github_link] as the role [git] of the domain [swoc]. *)
Theorem setup_registers_roles_domain_and_link
    (a : app) (w : world) (r : sphinx.registry) :
  apps w !! a = Some r ->
  swoc_free r ->
  exists w',
    local.setup a w = (Ok (), w') /\
    role_registry w'
    = <["pack" := GenericRole "pack" nodes.strong]>
        (<["const" := GenericRole "const" nodes.literal]>
           (<["arg" := GenericRole "arg" nodes.emphasis]> (role_registry w)))
    /\
    apps w'
    = <[a := sphinx.Registry
               (<["swoc" := local.SWOCDomain]> (sphinx.domains r))
               (<["swoc" := {["git" := RoleFunction local.make_github_link]}]>
                  (sphinx.domain_roles r))]> (apps w) /\
    sphinx.name local.SWOCDomain = "swoc" /\
    (exists r',
       apps w' !! a = Some r' /\
       sphinx.domains r' !! "swoc" = Some local.SWOCDomain /\
       (sphinx.domain_roles r' !! "swoc") ≫= (.!! "git")
       = Some (RoleFunction local.make_github_link)).
Proof.
  intros Ha Hfree. eexists. split; [by apply setup_fresh |].
  simpl. split; [done |]. split; [done |]. split; [done |].
  exists (with_swoc r). split; [apply lookup_insert_eq |].
  split; [apply lookup_insert_eq |].
  simpl. rewrite lookup_insert_eq. simpl. apply lookup_singleton_eq.
Qed.

Lemma setup_registers_roles_domain_and_link_witness :
  apps two_apps !! 1%positive = Some (sphinx.Registry ∅ ∅) /\
  swoc_free (sphinx.Registry ∅ ∅) /\
  exists w',
    local.setup 1%positive two_apps = (Ok (), w') /\
    role_registry w'
    = <["pack" := GenericRole "pack" nodes.strong]>
        (<["const" := GenericRole "const" nodes.literal]>
           (<["arg" := GenericRole "arg" nodes.emphasis]>
              (role_registry two_apps)))
    /\
    apps w'
    = <[1%positive := sphinx.Registry
               (<["swoc" := local.SWOCDomain]>
                  (sphinx.domains (sphinx.Registry ∅ ∅)))
               (<["swoc" := {["git" := RoleFunction local.make_github_link]}]>
                  (sphinx.domain_roles (sphinx.Registry ∅ ∅)))]>
        (apps two_apps) /\
    sphinx.name local.SWOCDomain = "swoc" /\
    (exists r',
       apps w' !! 1%positive = Some r' /\
       sphinx.domains r' !! "swoc" = Some local.SWOCDomain /\
       (sphinx.domain_roles r' !! "swoc") ≫= (.!! "git")
       = Some (RoleFunction local.make_github_link)).
Proof.
  split; [reflexivity |]. split; [split; reflexivity |].
  apply (setup_registers_roles_domain_and_link 1%positive two_apps
           (sphinx.Registry ∅ ∅));
    [reflexivity | split; reflexivity].
Defined.

(** C8, as stated, fails: the generic roles go to the role table of
    docutils, which is one for the process, so after [setup] on the first
    of two applications the second reads a table that has changed. *)
Lemma generic_roles_are_shared :
  ~ no_shared_state two_apps 1%positive 2%positive.
Proof.
  unfold no_shared_state, view. intros H.
  apply (f_equal (fun v => match v.2 !! "arg" with
                           | Some _ => true
                           | None => false
                           end)) in H.
  vm_compute in H. discriminate H.
Qed.

(** C8, amended: [setup] on two distinct applications with nothing under
    [swoc] returns on both; each gets the domain and its role in its own
    registry, and neither call changes the registry of the other
    application.  The role table of docutils is shared: after the first
    call it holds the three generic roles, which the second application
    reads before its own call, and the second call leaves the table as
    the first call left it. *)
Theorem setup_on_two_apps
    (a b : app) (w : world) (ra rb : sphinx.registry) :
  a ≠ b ->
  apps w !! a = Some ra ->
  apps w !! b = Some rb ->
  swoc_free ra ->
  swoc_free rb ->
  exists w1 w2,
    local.setup a w = (Ok (), w1) /\
    local.setup b w1 = (Ok (), w2) /\
    apps w1 !! b = Some rb /\
    apps w2 !! a = apps w1 !! a /\
    apps w2 !! a = Some (with_swoc ra) /\
    apps w2 !! b = Some (with_swoc rb) /\
    sphinx.domains (with_swoc ra) !! "swoc" = Some local.SWOCDomain /\
    sphinx.domains (with_swoc rb) !! "swoc" = Some local.SWOCDomain /\
    role_registry w1 !! "arg" = Some (GenericRole "arg" nodes.emphasis) /\
    role_registry w1 !! "const" = Some (GenericRole "const" nodes.literal) /\
    role_registry w1 !! "pack" = Some (GenericRole "pack" nodes.strong) /\
    role_registry w2 = role_registry w1.
Proof.
  intros Hab Ha Hb Hfa Hfb.
  pose proof (setup_fresh a w ra Ha Hfa) as H1.
  set (w1 := World (with_generic_roles (role_registry w))
                   (<[a := with_swoc ra]> (apps w))) in *.
  assert (apps w1 !! b = Some rb) as Hb1.
  { unfold w1. simpl. by rewrite lookup_insert_ne. }
  pose proof (setup_fresh b w1 rb Hb1 Hfb) as H2.
  eexists _, _. split; [exact H1 |]. split; [exact H2 |].
  split; [done |]. simpl.
  rewrite (lookup_insert_ne _ b a) by done. rewrite !lookup_insert_eq.
  do 5 (split; [done |]).
  unfold with_generic_roles.
  split; [by rewrite !lookup_insert_ne by done; apply lookup_insert_eq |].
  split; [by rewrite lookup_insert_ne by done; apply lookup_insert_eq |].
  split; [apply lookup_insert_eq |].
  apply map_eq. intros k.
  destruct (decide (k = "pack")) as [->|Hp]; [by rewrite !lookup_insert_eq |].
  rewrite (lookup_insert_ne _ "pack" k) by done.
  rewrite (lookup_insert_ne _ "pack" k) by done.
  destruct (decide (k = "const")) as [->|Hc]; [by rewrite !lookup_insert_eq |].
  rewrite (lookup_insert_ne _ "const" k) by done.
  rewrite (lookup_insert_ne _ "const" k) by done.
  destruct (decide (k = "arg")) as [->|Harg]; [by rewrite !lookup_insert_eq |].
  rewrite !lookup_insert_ne by done. done.
Qed.

Lemma setup_on_two_apps_witness :
  1%positive ≠ 2%positive /\
  apps two_apps !! 1%positive = Some (sphinx.Registry ∅ ∅) /\
  apps two_apps !! 2%positive = Some (sphinx.Registry ∅ ∅) /\
  swoc_free (sphinx.Registry ∅ ∅) /\
  exists w1 w2,
    local.setup 1%positive two_apps = (Ok (), w1) /\
    local.setup 2%positive w1 = (Ok (), w2) /\
    apps w1 !! 2%positive = Some (sphinx.Registry ∅ ∅) /\
    apps w2 !! 1%positive = apps w1 !! 1%positive /\
    apps w2 !! 1%positive = Some (with_swoc (sphinx.Registry ∅ ∅)) /\
    apps w2 !! 2%positive = Some (with_swoc (sphinx.Registry ∅ ∅)) /\
    sphinx.domains (with_swoc (sphinx.Registry ∅ ∅)) !! "swoc"
    = Some local.SWOCDomain /\
    sphinx.domains (with_swoc (sphinx.Registry ∅ ∅)) !! "swoc"
    = Some local.SWOCDomain /\
    role_registry w1 !! "arg" = Some (GenericRole "arg" nodes.emphasis) /\
    role_registry w1 !! "const" = Some (GenericRole "const" nodes.literal) /\
    role_registry w1 !! "pack" = Some (GenericRole "pack" nodes.strong) /\
    role_registry w2 = role_registry w1.
Proof.
  split; [discriminate |]. split; [reflexivity |]. split; [reflexivity |].
  split; [split; reflexivity |].
  apply (setup_on_two_apps 1%positive 2%positive two_apps
           (sphinx.Registry ∅ ∅) (sphinx.Registry ∅ ∅));
    [discriminate | reflexivity | reflexivity | split; reflexivity
    | split; reflexivity].
Defined.

(** * Further properties of the link generator *)

(** X1: the link tells the path: when two calls on plain options return
    nodes with the same link, they were given the same path. *)
Theorem link_determines_path
    (name1 name2 rawtext1 rawtext2 text1 text2 : string)
    (lineno1 lineno2 : Z) (inliner1 inliner2 : pyval)
    (options1 options2 content1 content2 : loc) (h1 h2 : heap)
    (items1 items2 : list (string * pyval)) :
  h1 !! options1 = Some (ODict items1) ->
  plain_options h1 items1 = true ->
  h2 !! options2 = Some (ODict items2) ->
  plain_options h2 items2 = true ->
  exists node1 h1' node2 h2',
    local.make_github_link name1 rawtext1 text1 lineno1 inliner1 options1
      content1 h1
    = (Ok ([node1], []), h1') /\
    local.make_github_link name2 rawtext2 text2 lineno2 inliner2 options2
      content2 h2
    = (Ok ([node2], []), h2') /\
    (nodes.get node1 "refuri" = nodes.get node2 "refuri" -> text1 = text2).
Proof.
  intros Hopt1 Hplain1 Hopt2 Hplain2.
  destruct (make_github_link_plain name1 rawtext1 lineno1 inliner1 options1
              content1 text1 h1 items1 Hopt1 Hplain1)
    as (node1 & h1' & Hrun1 & _ & _ & _ & _ & Huri1).
  destruct (make_github_link_plain name2 rawtext2 lineno2 inliner2 options2
              content2 text2 h2 items2 Hopt2 Hplain2)
    as (node2 & h2' & Hrun2 & _ & _ & _ & _ & Huri2).
  exists node1, h1', node2, h2'. split; [done |]. split; [done |].
  rewrite Huri1, Huri2. intros Heq.
  apply (String.app_inj github_blob_master). congruence.
Qed.

Lemma link_determines_path_witness :
  store_with_options [] !! 1%positive = Some (ODict []) /\
  plain_options (store_with_options []) [] = true /\
  exists node1 h1' node2 h2',
    local.make_github_link "git" ":swoc:git:`a/x.h`" "a/x.h" 3 VNone
      1%positive 2%positive (store_with_options [])
    = (Ok ([node1], []), h1') /\
    local.make_github_link "git" ":swoc:git:`b/x.h`" "b/x.h" 4 VNone
      1%positive 2%positive (store_with_options [])
    = (Ok ([node2], []), h2') /\
    (nodes.get node1 "refuri" = nodes.get node2 "refuri" ->
     "a/x.h" = "b/x.h").
Proof.
  split; [reflexivity |]. split; [reflexivity |].
  apply (link_determines_path "git" "git" ":swoc:git:`a/x.h`"
           ":swoc:git:`b/x.h`" "a/x.h" "b/x.h" 3 4 VNone VNone
           1%positive 1%positive 2%positive 2%positive
           (store_with_options []) (store_with_options []) [] []);
    reflexivity.
Defined.

(** X2: an accepted option that is no list attribute reaches the node
    under its lower-cased name with the value it was given, when no later
    option has the same lower-cased name; this holds for the name
    [refuri] too, where the option takes the place of the computed
    link. *)
Theorem option_is_passed_to_node
    (name rawtext text : string) (lineno : Z) (inliner : pyval)
    (options content : loc) (h : heap)
    (pre post : list (string * pyval)) (k : string) (v : pyval) :
  h !! options = Some (ODict (pre ++ (k, v) :: post)%list) ->
  accepts h (pre ++ (k, v) :: post)%list = true ->
  Str.lower k ∉ nodes.list_attributes ->
  (forall kv, kv ∈ post -> Str.lower kv.1 ≠ Str.lower k) ->
  exists node h',
    local.make_github_link name rawtext text lineno inliner options content h
    = (Ok ([node], []), h') /\
    nodes.get node (Str.lower k) = Some v.
Proof.
  intros Hopt Hacc Hk Hpost.
  pose proof (accepts_split _ _ Hacc) as (_ & _ & Hall).
  assert (wp (local.make_github_link name rawtext text lineno inliner
                options content)
             (fun r _ => exists node,
                r = Ok ([node], []) /\
                nodes.get node (Str.lower k) = Some v) h) as Hwp.
  { apply (wp_make_github_link_accepted name rawtext text lineno inliner
             options content _ h _ Hopt Hacc).
    eapply wp_mono.
    { apply (wp_Element_init_keywords nodes.reference rawtext _ _
               (fun d _ => d !! Str.lower k = Some v)).
      intros d h1 H1.
      eapply wp_mono.
      { apply (wp_set_attributes_last h
                 (("refuri", VStr (github_blob_master +:+ text)) :: pre)
                 k v post d h1 H1); [|done..].
        by simpl. }
      simpl. intros r h2 (d' & -> & Hd'). eauto. }
    simpl. intros r h' (attrs & -> & Hattrs). eauto. }
  destruct (wp_run _ _ _ Hwp) as (r & h' & Hrun & node & -> & Hget).
  by exists node, h'.
Qed.

Lemma option_is_passed_to_node_witness :
  store_with_styled_options !! 1%positive
  = Some (ODict ([("classes", VRef 3%positive)]
                 ++ (("Title", VStr "source") :: []))%list) /\
  accepts store_with_styled_options
    ([("classes", VRef 3%positive)] ++ (("Title", VStr "source") :: []))%list
  = true /\
  (Str.lower "Title" ∉ nodes.list_attributes) /\
  (forall kv : string * pyval,
     kv ∈ [] -> Str.lower kv.1 ≠ Str.lower "Title") /\
  exists node h',
    local.make_github_link "git" ":swoc:git:`README.md`" "README.md" 12
      VNone 1%positive 2%positive store_with_styled_options
    = (Ok ([node], []), h') /\
    nodes.get node (Str.lower "Title") = Some (VStr "source").
Proof.
  assert (Str.lower "Title" ∉ nodes.list_attributes) as Hk.
  { intros H%list_elem_of_In. simpl in H. intuition discriminate. }
  assert (forall kv : string * pyval,
            kv ∈ [] -> Str.lower kv.1 ≠ Str.lower "Title") as Hpost.
  { intros kv H. by apply elem_of_nil in H. }
  split; [reflexivity |]. split; [reflexivity |].
  split; [exact Hk |]. split; [exact Hpost |].
  apply (option_is_passed_to_node "git" ":swoc:git:`README.md`" "README.md"
           12 VNone 1%positive 2%positive store_with_styled_options
           [("classes", VRef 3%positive)] [] "Title" (VStr "source"));
    [reflexivity | reflexivity | exact Hk | exact Hpost].
Defined.

(** X3: a list given for one of the list attributes [ids], [classes],
    [names] and [dupnames] reaches the node as a copy: the attribute
    refers to a list with the same items at an address that was not live
    before the call, and the list of the caller is as it was. *)
Theorem list_option_is_copied
    (name rawtext text : string) (lineno : Z) (inliner : pyval)
    (options content : loc) (h : heap)
    (pre post : list (string * pyval)) (k : string) (l : loc)
    (xs : list pyval) :
  h !! options = Some (ODict (pre ++ (k, VRef l) :: post)%list) ->
  accepts h (pre ++ (k, VRef l) :: post)%list = true ->
  h !! l = Some (OList xs) ->
  Str.lower k ∈ ["ids"; "classes"; "names"; "dupnames"] ->
  (forall kv, kv ∈ post -> Str.lower kv.1 ≠ Str.lower k) ->
  exists node h' l',
    local.make_github_link name rawtext text lineno inliner options content h
    = (Ok ([node], []), h') /\
    nodes.get node (Str.lower k) = Some (VRef l') /\
    h !! l' = None /\
    h' !! l' = Some (OList xs) /\
    h' !! l = Some (OList xs).
Proof.
  intros Hopt Hacc Hl Hk4 Hpost.
  assert (Str.lower k ∈ nodes.list_attributes) as Hk.
  { unfold nodes.list_attributes.
    repeat (apply elem_of_cons in Hk4 as [->|Hk4];
            [apply list_elem_of_In; simpl; auto |]).
    by apply elem_of_nil in Hk4. }
  pose proof (accepts_split _ _ Hacc) as (_ & _ & Hall).
  assert (wp (local.make_github_link name rawtext text lineno inliner
                options content)
             (fun r h' => exists node l',
                r = Ok ([node], []) /\
                nodes.get node (Str.lower k) = Some (VRef l') /\
                h !! l' = None /\ h' !! l' = Some (OList xs)) h) as Hwp.
  { apply (wp_make_github_link_accepted name rawtext text lineno inliner
             options content _ h _ Hopt Hacc).
    eapply wp_mono.
    { apply (wp_Element_init_keywords nodes.reference rawtext _ _
               (fun d h' => exists l',
                  d !! Str.lower k = Some (VRef l') /\
                  h !! l' = None /\ h' !! l' = Some (OList xs))).
      intros d h1 H1.
      eapply wp_mono.
      { apply (wp_set_attributes_copy h
                 (("refuri", VStr (github_blob_master +:+ text)) :: pre)
                 k l xs post d h1 H1); [|done..].
        by simpl. }
      simpl. intros r h2 (d' & l' & -> & Hd' & Hfresh & Hcopy).
      exists d'. split; [done |]. by exists l'. }
    simpl. intros r h' (attrs & -> & l' & Hattrs & Hfresh & Hcopy).
    eexists _, l'. split; [done |]. by repeat split. }
  pose proof (make_github_link_frame name rawtext text lineno inliner options
                content h) as Hframe.
  destruct (wp_run _ _ _ (wp_and _ _ _ _ Hwp Hframe))
    as (r & h' & Hrun & (node & l' & -> & Hget & Hfresh & Hcopy) & Hsub).
  exists node, h', l'. repeat split; try done.
  by eapply lookup_weaken.
Qed.

Lemma list_option_is_copied_witness :
  store_with_styled_options !! 1%positive
  = Some (ODict ([] ++ (("classes", VRef 3%positive)
                        :: [("Title", VStr "source")]))%list) /\
  accepts store_with_styled_options
    ([] ++ (("classes", VRef 3%positive)
            :: [("Title", VStr "source")]))%list
  = true /\
  store_with_styled_options !! 3%positive = Some (OList [VStr "external"]) /\
  (Str.lower "classes" ∈ ["ids"; "classes"; "names"; "dupnames"]) /\
  (forall kv : string * pyval,
     kv ∈ [("Title", VStr "source")] ->
     Str.lower kv.1 ≠ Str.lower "classes") /\
  exists node h' l',
    local.make_github_link "git" ":swoc:git:`README.md`" "README.md" 12
      VNone 1%positive 2%positive store_with_styled_options
    = (Ok ([node], []), h') /\
    nodes.get node (Str.lower "classes") = Some (VRef l') /\
    store_with_styled_options !! l' = None /\
    h' !! l' = Some (OList [VStr "external"]) /\
    h' !! 3%positive = Some (OList [VStr "external"]).
Proof.
  assert (Str.lower "classes" ∈ ["ids"; "classes"; "names"; "dupnames"])
    as Hk.
  { apply list_elem_of_In. simpl. auto. }
  assert (forall kv : string * pyval,
            kv ∈ [("Title", VStr "source")] ->
            Str.lower kv.1 ≠ Str.lower "classes") as Hpost.
  { intros kv ->%list_elem_of_singleton. discriminate. }
  split; [reflexivity |]. split; [reflexivity |]. split; [reflexivity |].
  split; [exact Hk |]. split; [exact Hpost |].
  apply (list_option_is_copied "git" ":swoc:git:`README.md`" "README.md"
           12 VNone 1%positive 2%positive store_with_styled_options
           [] [("Title", VStr "source")] "classes" 3%positive
           [VStr "external"]);
    [reflexivity | reflexivity | reflexivity | exact Hk | exact Hpost].
Defined.

(** X4: a call that the constructor refuses at binding time raises
    [TypeError] before anything is made: when the options are a list and
    not a dict, or have a key [refuri], [self], [rawsource] or [text], the
    store after the call is the store before it. *)
Theorem refused_call_leaves_store
    (name rawtext text : string) (lineno : Z) (inliner : pyval)
    (options content : loc) (h : heap) :
  (exists xs, h !! options = Some (OList xs)) \/
  (exists items,
     h !! options = Some (ODict items) /\
     nodes.has_key_in ["refuri"] items
     || nodes.has_key_in nodes.positional_names items = true) ->
  local.make_github_link name rawtext text lineno inliner options content h
  = (Raise TypeError, h).
Proof.
  intros Hcase.
  assert (wp (local.make_github_link name rawtext text lineno inliner
                options content)
             (fun r h' => r = Raise TypeError /\ h' = h) h) as Hwp.
  { apply wp_bind, wp_lift. rewrite format_github.
    apply wp_bind. unfold nodes.call_TextElement.
    apply wp_bind, wp_deref.
    destruct Hcase as [[xs ->]|(items & -> & Hkey)]; simpl; [done |].
    destruct (nodes.has_key_in ["refuri"] items); [done |].
    unfold nodes.has_key_in at 1. simpl existsb.
    fold (nodes.has_key_in nodes.positional_names items).
    simpl in Hkey. by rewrite Hkey. }
  destruct (wp_run _ _ _ Hwp) as (r & h' & Hrun & -> & ->). done.
Qed.

Lemma refused_call_leaves_store_witness :
  ((exists xs, store_with_options [("text", VStr "x")] !! 1%positive
               = Some (OList xs)) \/
   (exists items,
      store_with_options [("text", VStr "x")] !! 1%positive
      = Some (ODict items) /\
      nodes.has_key_in ["refuri"] items
      || nodes.has_key_in nodes.positional_names items = true)) /\
  local.make_github_link "git" ":swoc:git:`README.md`" "README.md" 12 VNone
    1%positive 2%positive (store_with_options [("text", VStr "x")])
  = (Raise TypeError, store_with_options [("text", VStr "x")]).
Proof.
  assert ((exists xs, store_with_options [("text", VStr "x")] !! 1%positive
                      = Some (OList xs)) \/
          (exists items,
             store_with_options [("text", VStr "x")] !! 1%positive
             = Some (ODict items) /\
             nodes.has_key_in ["refuri"] items
             || nodes.has_key_in nodes.positional_names items = true))
    as Hcase.
  { right. exists [("text", VStr "x")]. split; reflexivity. }
  split; [exact Hcase |].
  apply (refused_call_leaves_store "git" ":swoc:git:`README.md`" "README.md"
           12 VNone 1%positive 2%positive
           (store_with_options [("text", VStr "x")]) Hcase).
Defined.

(** The [def] statement always runs: it makes an empty dict and an empty
    list at two addresses that were not live. *)
Lemma def_make_github_link_spec (h0 : heap) :
  exists d h1,
    local.def_make_github_link h0 = (Ok d, h1) /\
    h0 ⊆ h1 /\
    h1 !! local.default_options d = Some (ODict []) /\
    h1 !! local.default_content d = Some (OList []).
Proof.
  assert (wp local.def_make_github_link
            (fun r h1 => exists d,
               r = Ok d /\ h0 ⊆ h1 /\
               h1 !! local.default_options d = Some (ODict []) /\
               h1 !! local.default_content d = Some (OList [])) h0) as Hwp.
  { apply wp_bind, wp_alloc. intros o Ho.
    apply wp_bind, wp_alloc. intros c Hc. apply wp_ret.
    eexists. split; [done |]. simpl.
    assert (c ≠ o) as Hco.
    { intros ->. by rewrite lookup_insert_eq in Hc. }
    split.
    - etrans; [by apply insert_subseteq |]. by apply insert_subseteq.
    - rewrite lookup_insert_ne by done. by rewrite !lookup_insert_eq. }
  destruct (wp_run _ _ _ Hwp) as (r & h1 & Hrun & d & -> & H).
  by exists d, h1.
Qed.

(** X5: the default arguments stay usable.  After the [def] statement
    and any one call of the function, however it was called and whether
    it returned or raised, the shared default options are still the empty
    dict and the default content the empty list; so a later call that
    leaves both out returns the node with the basename of its path as
    its text and with the link of its path. *)
Theorem default_arguments_stay_empty
    (h0 : heap) (name1 rawtext1 text1 : string) (lineno1 : Z)
    (inliner1 : pyval) (options1 content1 : option loc)
    (name2 rawtext2 text2 : string) (lineno2 : Z) (inliner2 : pyval) :
  exists d h1 r1 h2 node h3,
    local.def_make_github_link h0 = (Ok d, h1) /\
    local.call_make_github_link d name1 rawtext1 text1 lineno1 inliner1
      options1 content1 h1
    = (r1, h2) /\
    h2 !! local.default_options d = Some (ODict []) /\
    h2 !! local.default_content d = Some (OList []) /\
    local.call_make_github_link d name2 rawtext2 text2 lineno2 inliner2
      None None h2
    = (Ok ([node], []), h3) /\
    nodes.children node = text_children (posixpath.basename text2) /\
    nodes.get node "refuri" = Some (VStr (github_blob_master +:+ text2)).
Proof.
  destruct (def_make_github_link_spec h0) as (d & h1 & Hdef & _ & Ho & Hc).
  destruct (local.call_make_github_link d name1 rawtext1 text1 lineno1
              inliner1 options1 content1 h1) as [r1 h2] eqn:Hcall1.
  assert (h1 ⊆ h2) as Hsub.
  { pose proof (make_github_link_frame name1 rawtext1 text1 lineno1 inliner1
                  (default (local.default_options d) options1)
                  (default (local.default_content d) content1) h1) as H.
    unfold wp in H. unfold local.call_make_github_link in Hcall1.
    by rewrite Hcall1 in H. }
  pose proof (lookup_weaken _ _ _ _ Ho Hsub) as Ho2.
  pose proof (lookup_weaken _ _ _ _ Hc Hsub) as Hc2.
  destruct (make_github_link_plain name2 rawtext2 lineno2 inliner2
              (local.default_options d) (local.default_content d) text2 h2 []
              Ho2 eq_refl)
    as (node & h3 & Hrun & _ & _ & Hch & _ & Huri).
  by exists d, h1, r1, h2, node, h3.
Qed.

(** * Further properties of the registration *)

Section setup_more.
Implicit Types (a b : app) (w : world) (r : sphinx.registry).

Lemma with_generic_roles_twice (t : gmap string role) :
  with_generic_roles (with_generic_roles t) = with_generic_roles t.
Proof.
  unfold with_generic_roles. apply map_eq. intros k.
  destruct (decide (k = "pack")) as [->|Hp]; [by rewrite !lookup_insert_eq |].
  rewrite (lookup_insert_ne _ "pack" k) by done.
  rewrite (lookup_insert_ne _ "pack" k) by done.
  destruct (decide (k = "const")) as [->|Hc]; [by rewrite !lookup_insert_eq |].
  rewrite (lookup_insert_ne _ "const" k) by done.
  rewrite (lookup_insert_ne _ "const" k) by done.
  destruct (decide (k = "arg")) as [->|Harg]; [by rewrite !lookup_insert_eq |].
  by rewrite !lookup_insert_ne by done.
Qed.

(** When the domain name is taken, [add_domain] raises and [setup] stops
    there. *)
Lemma setup_taken a w r :
  apps w !! a = Some r ->
  is_Some (sphinx.domains r !! "swoc") ->
  local.setup a w
  = (Raise ExtensionError,
     World (with_generic_roles (role_registry w)) (apps w)).
Proof.
  intros Ha Hdom. rewrite setup_unfold.
  unfold mbind, M_bind, on_app. simpl. rewrite Ha.
  unfold sphinx.add_domain. simpl.
  rewrite bool_decide_eq_true_2 by done. simpl.
  by rewrite insert_id.
Qed.

End setup_more.

Section setup_frame.
Implicit Types (a b : app) (w : world) (r : sphinx.registry).

(** Whatever happens next, the three generic roles are in the role table
    when [setup] is over. *)
Lemma setup_role_registry a w :
  role_registry (local.setup a w).2 = with_generic_roles (role_registry w).
Proof.
  rewrite setup_unfold. unfold mbind, M_bind, on_app. simpl.
  destruct (apps w !! a) as [r|] eqn:Ha; simpl; [|done].
  destruct (sphinx.add_domain local.SWOCDomain r) as [[[]|e] r1]; simpl;
    [|done].
  rewrite lookup_insert_eq.
  by destruct (sphinx.add_role_to_domain _ _ _ r1) as [x r2].
Qed.

Lemma add_domain_other_names (domain : sphinx.Domain) dname r :
  dname ≠ sphinx.name domain ->
  sphinx.domains (sphinx.add_domain domain r).2 !! dname
  = sphinx.domains r !! dname /\
  sphinx.domain_roles (sphinx.add_domain domain r).2
  = sphinx.domain_roles r.
Proof.
  intros Hne. unfold sphinx.add_domain. case_bool_decide; simpl; [done |].
  by rewrite lookup_insert_ne.
Qed.

Lemma add_role_to_domain_other_names domain dname nm rl r :
  dname ≠ domain ->
  sphinx.domains (sphinx.add_role_to_domain domain nm rl r).2
  = sphinx.domains r /\
  sphinx.domain_roles (sphinx.add_role_to_domain domain nm rl r).2 !! dname
  = sphinx.domain_roles r !! dname.
Proof.
  intros Hne. unfold sphinx.add_role_to_domain.
  repeat case_bool_decide; simpl; try done;
    by rewrite lookup_insert_ne.
Qed.

(** What [setup] leaves for the application [a]: a registry that differs
    from the one it had under the name [swoc] at most. *)
Lemma setup_own_app a w r dname :
  apps w !! a = Some r ->
  dname ≠ "swoc" ->
  exists r',
    apps (local.setup a w).2 !! a = Some r' /\
    sphinx.domains r' !! dname = sphinx.domains r !! dname /\
    sphinx.domain_roles r' !! dname = sphinx.domain_roles r !! dname.
Proof.
  intros Ha Hne. rewrite setup_unfold. unfold mbind, M_bind, on_app. simpl.
  rewrite Ha.
  pose proof (add_domain_other_names local.SWOCDomain dname r Hne)
    as [Hd1 Hr1].
  destruct (sphinx.add_domain local.SWOCDomain r) as [[[]|e] r1]; simpl in *.
  - rewrite lookup_insert_eq.
    pose proof (add_role_to_domain_other_names "swoc" dname "git"
                  (RoleFunction local.make_github_link) r1 Hne) as [Hd2 Hr2].
    destruct (sphinx.add_role_to_domain _ _ _ r1) as [x r2]; simpl in *.
    exists r2. rewrite insert_insert_eq, lookup_insert_eq.
    split; [done |]. split; congruence.
  - exists r1. rewrite lookup_insert_eq. split; [done |].
    split; congruence.
Qed.

End setup_frame.

(** X6: on an application whose registry has a domain named [swoc]
    already, [setup] raises [ExtensionError] and leaves every registry as
    it was; the three generic roles, registered before the domain, are in
    the role table all the same. *)
Theorem setup_raises_when_domain_is_taken
    (a : app) (w : world) (r : sphinx.registry) :
  apps w !! a = Some r ->
  is_Some (sphinx.domains r !! "swoc") ->
  exists w',
    local.setup a w = (Raise ExtensionError, w') /\
    apps w' = apps w /\
    role_registry w' !! "arg" = Some (GenericRole "arg" nodes.emphasis) /\
    role_registry w' !! "const" = Some (GenericRole "const" nodes.literal) /\
    role_registry w' !! "pack" = Some (GenericRole "pack" nodes.strong).
Proof.
  intros Ha Hdom. eexists. split; [by apply (setup_taken a w r) |].
  simpl. unfold with_generic_roles. split; [done |].
  split; [|split].
  - rewrite !lookup_insert_ne by done. apply lookup_insert_eq.
  - rewrite lookup_insert_ne by done. apply lookup_insert_eq.
  - apply lookup_insert_eq.
Qed.

Lemma setup_raises_when_domain_is_taken_witness :
  apps app_with_swoc !! 1%positive = Some (with_swoc (sphinx.Registry ∅ ∅)) /\
  is_Some (sphinx.domains (with_swoc (sphinx.Registry ∅ ∅)) !! "swoc") /\
  exists w',
    local.setup 1%positive app_with_swoc = (Raise ExtensionError, w') /\
    apps w' = apps app_with_swoc /\
    role_registry w' !! "arg" = Some (GenericRole "arg" nodes.emphasis) /\
    role_registry w' !! "const" = Some (GenericRole "const" nodes.literal) /\
    role_registry w' !! "pack" = Some (GenericRole "pack" nodes.strong).
Proof.
  split; [reflexivity |].
  split; [exists local.SWOCDomain; reflexivity |].
  apply (setup_raises_when_domain_is_taken 1%positive app_with_swoc
           (with_swoc (sphinx.Registry ∅ ∅)));
    [reflexivity | exists local.SWOCDomain; reflexivity].
Defined.

(** X7: [setup] cannot be run twice for one application: after a first
    call that returned, a second call raises [ExtensionError] and leaves
    the whole state as the first call left it. *)
Theorem setup_twice_raises (a : app) (w : world) (r : sphinx.registry) :
  apps w !! a = Some r ->
  swoc_free r ->
  exists w1,
    local.setup a w = (Ok (), w1) /\
    local.setup a w1 = (Raise ExtensionError, w1).
Proof.
  intros Ha Hfree. eexists. split; [by apply setup_fresh |].
  rewrite (setup_taken a _ (with_swoc r)).
  - simpl. by rewrite with_generic_roles_twice.
  - simpl. apply lookup_insert_eq.
  - exists local.SWOCDomain. simpl. apply lookup_insert_eq.
Qed.

Lemma setup_twice_raises_witness :
  apps two_apps !! 1%positive = Some (sphinx.Registry ∅ ∅) /\
  swoc_free (sphinx.Registry ∅ ∅) /\
  exists w1,
    local.setup 1%positive two_apps = (Ok (), w1) /\
    local.setup 1%positive w1 = (Raise ExtensionError, w1).
Proof.
  split; [reflexivity |]. split; [split; reflexivity |].
  apply (setup_twice_raises 1%positive two_apps (sphinx.Registry ∅ ∅));
    [reflexivity | split; reflexivity].
Defined.

(** X8: whether it returns or raises, [setup] on [a] changes nothing but
    its own entries: the registry of any other application, every role of
    the role table other than [arg], [const] and [pack], and what the
    registry of [a] holds under any domain name other than [swoc] are as
    they were. *)
Theorem setup_changes_only_its_entries
    (a b : app) (w : world) (r : sphinx.registry) (k dname : string) :
  a ≠ b ->
  k ∉ ["arg"; "const"; "pack"] ->
  dname ≠ "swoc" ->
  apps w !! a = Some r ->
  apps (local.setup a w).2 !! b = apps w !! b /\
  role_registry (local.setup a w).2 !! k = role_registry w !! k /\
  exists r',
    apps (local.setup a w).2 !! a = Some r' /\
    sphinx.domains r' !! dname = sphinx.domains r !! dname /\
    sphinx.domain_roles r' !! dname = sphinx.domain_roles r !! dname.
Proof.
  intros Hab Hk Hd Ha. split; [by apply setup_other_app |].
  split; [|by apply (setup_own_app a w r)].
  rewrite setup_role_registry. unfold with_generic_roles.
  apply not_elem_of_cons in Hk as [H1 Hk].
  apply not_elem_of_cons in Hk as [H2 Hk].
  apply not_elem_of_cons in Hk as [H3 _].
  by rewrite !lookup_insert_ne by done.
Qed.

Lemma setup_changes_only_its_entries_witness :
  1%positive ≠ 2%positive /\
  ("code" ∉ ["arg"; "const"; "pack"]) /\
  "py" ≠ "swoc" /\
  apps two_apps !! 1%positive = Some (sphinx.Registry ∅ ∅) /\
  apps (local.setup 1%positive two_apps).2 !! 2%positive
  = apps two_apps !! 2%positive /\
  role_registry (local.setup 1%positive two_apps).2 !! "code"
  = role_registry two_apps !! "code" /\
  exists r',
    apps (local.setup 1%positive two_apps).2 !! 1%positive = Some r' /\
    sphinx.domains r' !! "py"
    = sphinx.domains (sphinx.Registry ∅ ∅) !! "py" /\
    sphinx.domain_roles r' !! "py"
    = sphinx.domain_roles (sphinx.Registry ∅ ∅) !! "py".
Proof.
  assert ("code" ∉ ["arg"; "const"; "pack"]) as Hk.
  { intros H%list_elem_of_In. simpl in H. intuition discriminate. }
  split; [discriminate |]. split; [exact Hk |]. split; [discriminate |].
  split; [reflexivity |].
  apply (setup_changes_only_its_entries 1%positive 2%positive two_apps
           (sphinx.Registry ∅ ∅) "code" "py");
    [discriminate | exact Hk | discriminate | reflexivity].
Defined.
